(** * The issue-events endpoint ([sentry/issues/endpoints/group_events.py])

    A shallow embedding of [GroupEventsEndpoint]: [get], [_get_events_snuba],
    the page-fetch closure [data_fn] and [_get_search_query].

    The endpoint talks to collaborators that live elsewhere (environment
    resolution, the issue-search parser, the date-range parser, the query
    builder, the storage engine, the node store, the serializers and the
    offset paginator).  They are gathered in the record [Collaborators]; every
    call the endpoint makes to one of them is written to a trace, so that the
    order, the number and the arguments of the calls can be stated. *)

From Stdlib Require Import List String Ascii ZArith Lia Bool.
From Stdlib Require Import Sorting.Sorted.
Import ListNotations.

Open Scope string_scope.
Open Scope Z_scope.
Open Scope list_scope.

(** ** Data model *)

(** [datetime] values are counted in microseconds, the resolution of Python's
    [datetime]; [timedelta(days=d)] is a difference of such values. *)
Definition datetime := Z.

Definition timedelta_days (d : Z) : Z := d * 86400 * 1000000.

Record Organization := { org_id : Z }.

Record Project := {
  organization : Organization;
  organization_id : Z
}.

Record Group := {
  group_id : Z;
  project_id : Z;
  project : Project;
  issue_category_name : string   (* [group.issue_category.name] *)
}.

Record Environment := { env_name : string }.

Definition User := string.

(** [request.GET] is a Django [QueryDict]: keys may repeat, and [get] answers
    with the last value bound to the key. *)
Definition QueryDict := list (string * string).

Record Request := {
  GET : QueryDict;
  user : User
}.

Fixpoint QueryDict_get (d : QueryDict) (key : string) : option string :=
  match d with
  | [] => None
  | (k, v) :: rest =>
      match QueryDict_get rest key with
      | Some later => Some later
      | None => if String.eqb k key then Some v else None
      end
  end.

Definition QueryDict_get_default (d : QueryDict) (key default : string) : string :=
  match QueryDict_get d key with
  | Some v => v
  | None => default
  end.

(** [x in ("1", "true")] for an [x] that may be [None]. *)
Definition in_tuple (x : option string) (choices : list string) : bool :=
  match x with
  | Some v => existsb (String.eqb v) choices
  | None => false
  end.

(** The strings written in ASCII, as the member names of an enum are. *)
Definition ascii_only (s : string) : bool :=
  forallb (fun c => Nat.ltb (nat_of_ascii c) 128) (list_ascii_of_string s).

(** [str.lower] on names written in ASCII: the letters [A]-[Z] are mapped to
    [a]-[z].  Python's [str.lower] also maps capital letters outside ASCII,
    which this function leaves alone; the two agree on the strings that
    satisfy [ascii_only]. *)
Definition lower_ascii (c : ascii) : ascii :=
  let n := nat_of_ascii c in
  if (andb (Nat.leb 65 n) (Nat.leb n 90)) then ascii_of_nat (n + 32) else c.

Fixpoint lower (s : string) : string :=
  match s with
  | EmptyString => EmptyString
  | String c rest => String (lower_ascii c) (lower rest)
  end.

(** The [params] dict of [_get_events_snuba].  Its first four keys are always
    present; ["environment"] is added later, and only sometimes. *)
Record Params := {
  p_project_id : list Z;
  p_organization_id : Z;
  p_start : datetime;
  p_end : datetime;
  p_environment : option (list string)
}.

Definition set_environment (params : Params) (names : list string) : Params :=
  {| p_project_id := p_project_id params;
     p_organization_id := p_organization_id params;
     p_start := p_start params;
     p_end := p_end params;
     p_environment := Some names |}.

(** A row of [results["data"]]: the four columns [data_fn] reads.  The
    answers of [run_query] are taken with these columns present; in the code
    an answer without the ["data"] key or without one of the columns raises
    [KeyError] out of [data_fn], after the query was run and before any
    hydration call. *)
Record Row := {
  row_id : string;           (* evt["id"] *)
  row_project_id : Z;        (* evt["project.id"] *)
  row_issue_id : Z;          (* evt["issue.id"] *)
  row_timestamp : string     (* evt["timestamp"] *)
}.

Record SnubaData := {
  sd_event_id : string;
  sd_group_id : Z;
  sd_project_id : Z;
  sd_timestamp : string
}.

Definition NodeData := string.

(** [eventstore.models.Event]: a lightweight handle, to which the node store
    may later attach the payload. *)
Record Event := {
  event_id : string;
  ev_project_id : Z;
  snuba_data : SnubaData;
  node : option NodeData
}.

Inductive Serializer := EventSerializer | SimpleEventSerializer.

Definition Json := string.

Inductive Body :=
| Detail (detail : string)          (* {"detail": ...} *)
| EventList (records : list Json).

Record Response := {
  status : Z;
  data : Body
}.

(** ** Exceptions, traces and the effect monad *)

Inductive exn :=
| InvalidQuery (msg : string)
| NoResults
| ResourceDoesNotExist
| InvalidParams (msg : string)
| InvalidSearchQuery (msg : string)
| GroupEventsError (msg : string)
| ParseError (detail : string)
| OtherError (msg : string).

Inductive outcome (A : Type) :=
| Ret (a : A)
| Raise (e : exn).
Arguments Ret {A} a.
Arguments Raise {A} e.

(** One entry per call to a collaborator; [Q] is the type of the structured
    query the builder produces. *)
Inductive call (Q : Type) :=
| EvGetEnvironments
| EvParseQuery (raw_query : string)
| EvGetDateRange
| EvDirectLookup (query : option string) (params : Params) (referrer : string)
| EvBuildQuery (query : string) (params : Params) (group : Group)
               (limit offset : Z) (orderby : option string)
| EvRunQuery (snuba_query : Q) (referrer : string)
| EvBindNodes (events : list Event)
| EvSerialize (events : list Event) (serializer : Serializer).
Arguments EvGetEnvironments {Q}.
Arguments EvParseQuery {Q} raw_query.
Arguments EvGetDateRange {Q}.
Arguments EvDirectLookup {Q} query params referrer.
Arguments EvBuildQuery {Q} query params group limit offset orderby.
Arguments EvRunQuery {Q} snuba_query referrer.
Arguments EvBindNodes {Q} events.
Arguments EvSerialize {Q} events serializer.

(** A computation: the calls it made, and how it ended. *)
Definition M (Q A : Type) : Type := list (call Q) * outcome A.

Definition ret {Q A} (a : A) : M Q A := ([], Ret a).

Definition raise {Q A} (e : exn) : M Q A := ([], Raise e).

Definition bind {Q A B} (m : M Q A) (f : A -> M Q B) : M Q B :=
  match m with
  | (t, Ret a) => let (t', r) := f a in (t ++ t', r)
  | (t, Raise e) => (t, Raise e)
  end.

(** [try: m  except ...: handler]; a handler that answers [None] does not
    catch the exception. *)
Definition try_except {Q A} (m : M Q A) (handler : exn -> option (M Q A)) : M Q A :=
  match m with
  | (t, Ret a) => (t, Ret a)
  | (t, Raise e) =>
      match handler e with
      | Some h => let (t', r) := h in (t ++ t', r)
      | None => (t, Raise e)
      end
  end.

(** A call to a collaborator: logged, then answered. *)
Definition invoke {Q A} (ev : call Q) (answer : outcome A) : M Q A := ([ev], answer).

Definition trace {Q A} (m : M Q A) : list (call Q) := fst m.
Definition result {Q A} (m : M Q A) : outcome A := snd m.

Declare Scope monad_scope.
Delimit Scope monad_scope with monad.
Notation "x <- m ;; k" := (bind m (fun x => k))
  (at level 61, m at next level, right associativity) : monad_scope.
Notation "' pat <- m ;; k" := (bind m (fun x => match x with pat => k end))
  (at level 61, pat pattern, m at next level, right associativity) : monad_scope.
Open Scope monad_scope.

(** ** Collaborators *)

(** Modelled from the spec: the pagination driver ([GenericOffsetPaginator]
    and [self.paginate] are not part of this file).  The spec gives it a
    [fetchPage(offset, limit)] callback which it calls some number of times,
    each call chosen after seeing the pages before it, and it hands the
    combined rows to [onResults].  A [Driver] is such a finite plan; a page
    fetch that raises ends it (spec 4.6: a failure while paginating is the
    failure of the request). *)
Inductive Driver :=
| Done (rows : list Event)
| Fetch (offset limit : Z) (k : list Event -> Driver).

Record Collaborators (Q : Type) := {
  get_environments : Request -> Organization -> outcome (list Environment);
  (* the entries of the dict [parse_query] returns; only "query" is read *)
  parse_query : list Project -> string -> User -> list Environment ->
                outcome (list (string * string));
  get_date_range_from_params : QueryDict -> bool ->
                               outcome (option datetime * option datetime);
  direct_hit_qualifies : option string -> bool;
  direct_lookup : option string -> Params -> string -> Group -> outcome (option Event);
  direct_hit_render : Request -> Event -> Json;
  get_query_builder_for_group : string -> Params -> Group -> Z -> Z -> option string ->
                                outcome Q;
  run_query : Q -> string -> outcome (list Row);
  node_payload : Z -> string -> NodeData;
  serialize : list Event -> User -> Serializer -> list Json;
  paginator : Request -> Driver
}.
Arguments get_environments {Q} c _ _.
Arguments parse_query {Q} c _ _ _ _.
Arguments get_date_range_from_params {Q} c _ _.
Arguments direct_hit_qualifies {Q} c _.
Arguments direct_lookup {Q} c _ _ _ _.
Arguments direct_hit_render {Q} c _ _.
Arguments get_query_builder_for_group {Q} c _ _ _ _ _ _.
Arguments run_query {Q} c _ _.
Arguments node_payload {Q} c _ _.
Arguments serialize {Q} c _ _ _.
Arguments paginator {Q} c _.

(** [dict.pop(key, None)] on the entries of a dict. *)
Fixpoint dict_pop (d : list (string * string)) (key : string) : option string :=
  match d with
  | [] => None
  | (k, v) :: rest => if String.eqb k key then Some v else dict_pop rest key
  end.

(** ** The endpoint *)

Section Endpoint.

Context {Q : Type}.
Variable B : Collaborators Q.

(** Modelled from the spec: [get_direct_hit_response] of
    [sentry.api.helpers.events], which is not part of this file.  The spec
    (4.2) has it recognise a predicate that names one event, perform a single
    targeted lookup for it, and answer with a single-element 200 response,
    or with [None] when the predicate does not qualify or nothing is found. *)
Definition get_direct_hit_response (request : Request) (query : option string)
           (params : Params) (referrer : string) (group : Group)
  : M Q (option Response) :=
  if direct_hit_qualifies B query then
    found <- invoke (EvDirectLookup query params referrer)
                    (direct_lookup B query params referrer group) ;;
    match found with
    | Some ev =>
        ret (Some {| status := 200;
                     data := EventList [direct_hit_render B request ev] |})
    | None => ret None
    end
  else ret None.

(** Modelled from the spec: [eventstore.backend.bind_nodes], which is not
    part of this file.  One batched call for the whole list, which attaches
    the payload of each handle to it (spec 4.4, step 5). *)
Definition attach_node (e : Event) : Event :=
  {| event_id := event_id e;
     ev_project_id := ev_project_id e;
     snuba_data := snuba_data e;
     node := Some (node_payload B (ev_project_id e) (event_id e)) |}.

(** Modelled from the spec: the batched call itself, logged once with the
    list of handles it is given.  The node store is taken to answer; a round
    trip that raises would end the page fetch after this call. *)
Definition bind_nodes (events : list Event) : M Q (list Event) :=
  invoke (EvBindNodes events) (Ret (map attach_node events)).

(** [Event(event_id=evt["id"], project_id=evt["project.id"], snuba_data={...})] *)
Definition event_of_row (evt : Row) : Event :=
  {| event_id := row_id evt;
     ev_project_id := row_project_id evt;
     snuba_data := {| sd_event_id := row_id evt;
                      sd_group_id := row_issue_id evt;
                      sd_project_id := row_project_id evt;
                      sd_timestamp := row_timestamp evt |};
     node := None |}.

(** [_get_search_query] *)
Definition _get_search_query (request : Request) (group : Group)
           (environments : list Environment) : M Q (option string) :=
  let raw_query := QueryDict_get (GET request) "query" in
  match raw_query with
  | Some (String c rest as raw) =>
      query_kwargs <- invoke (EvParseQuery raw)
                             (parse_query B [project group] raw (user request)
                                          environments) ;;
      ret (dict_pop query_kwargs "query")
  | _ => ret None
  end.

(** The closure [data_fn] of [_get_events_snuba], with the variables it
    captures ([request], [params], [group], [referrer], [orderby], [full])
    as arguments. *)
Definition data_fn (request : Request) (params : Params) (group : Group)
           (referrer : string) (orderby : option string) (full : bool)
           (offset limit : Z) : M Q (list Event) :=
  snuba_query <-
    try_except
      (invoke (EvBuildQuery (QueryDict_get_default (GET request) "query" "")
                            params group limit offset orderby)
              (get_query_builder_for_group B
                 (QueryDict_get_default (GET request) "query" "")
                 params group limit offset orderby))
      (fun e => match e with
                | InvalidSearchQuery msg => Some (raise (ParseError msg))
                | _ => None
                end) ;;
  results <- invoke (EvRunQuery snuba_query referrer)
                    (run_query B snuba_query referrer) ;;
  let results := map event_of_row results in
  if full then bind_nodes results else ret results.

(** The paginator drives the page-fetch callback. *)
Fixpoint run_paginator (d : Driver) (fetch : Z -> Z -> M Q (list Event))
  : M Q (list Event) :=
  match d with
  | Done rows => ret rows
  | Fetch offset limit k =>
      rows <- fetch offset limit ;;
      run_paginator (k rows) fetch
  end.

(** [self.paginate(request=..., on_results=..., paginator=GenericOffsetPaginator(data_fn))] *)
Definition paginate (request : Request)
           (on_results : list Event -> M Q (list Json))
           (fetch : Z -> Z -> M Q (list Event)) : M Q Response :=
  rows <- run_paginator (paginator B request) fetch ;;
  records <- on_results rows ;;
  ret {| status := 200; data := EventList records |}.

Definition request_full (request : Request) : bool :=
  in_tuple (QueryDict_get (GET request) "full") ["1"; "true"].

Definition request_sample (request : Request) : bool :=
  in_tuple (QueryDict_get (GET request) "sample") ["1"; "true"].

Definition request_orderby (request : Request) : option string :=
  if request_sample request then Some "sample" else None.

(** The [params] dict as [_get_events_snuba] first builds it; [now] is the
    reading of [timezone.now()]. *)
Definition initial_params (now : datetime) (group : Group)
           (start end_ : option datetime) : Params :=
  let default_end := now in
  let default_start := default_end - timedelta_days 90 in
  {| p_project_id := [project_id group];
     p_organization_id := organization_id (project group);
     p_start := match start with Some s => s | None => default_start end;
     p_end := match end_ with Some e => e | None => default_end end;
     p_environment := None |}.

(** [params] after [if environments: params["environment"] = [...]]. *)
Definition page_params (params : Params) (environments : list Environment) : Params :=
  match environments with
  | [] => params
  | _ :: _ => set_environment params (map env_name environments)
  end.

Definition group_referrer (group : Group) : string :=
  "api.group-events." ++ lower (issue_category_name group).

(** [_get_events_snuba] *)
Definition _get_events_snuba (now : datetime) (request : Request) (group : Group)
           (environments : list Environment) (query : option string)
           (start end_ : option datetime) : M Q Response :=
  let params := initial_params now group start end_ in
  let referrer := group_referrer group in
  direct_hit_resp <- get_direct_hit_response request query params
                                             (referrer ++ ".direct-hit") group ;;
  match direct_hit_resp with
  | Some resp => ret resp
  | None =>
      let params := page_params params environments in
      let full := request_full request in
      let orderby := request_orderby request in
      let serializer := if full then EventSerializer else SimpleEventSerializer in
      paginate request
               (fun results =>
                  invoke (EvSerialize results serializer)
                         (Ret (serialize B results (user request) serializer)))
               (data_fn request params group referrer orderby full)
  end.

(** The first [try] block of [get]: environments, then the search query. *)
Definition resolve_query (request : Request) (group : Group)
  : M Q (list Environment * option string) :=
  environments <- invoke EvGetEnvironments
                         (get_environments B request (organization (project group))) ;;
  query <- _get_search_query request group environments ;;
  ret (environments, query).

(** [get]; [now] is what [timezone.now()] reads inside [_get_events_snuba]. *)
Definition get (now : datetime) (request : Request) (group : Group) : M Q Response :=
  resolved <-
    try_except
      (r <- resolve_query request group ;; ret (inr r))
      (fun exc => match exc with
                  | InvalidQuery msg =>
                      Some (ret (inl {| status := 400; data := Detail msg |}))
                  | NoResults | ResourceDoesNotExist =>
                      Some (ret (inl {| status := 200; data := EventList [] |}))
                  | _ => None
                  end) ;;
  match resolved with
  | inl early => ret early
  | inr (environments, query) =>
      '(start, end_) <-
        try_except
          (invoke EvGetDateRange (get_date_range_from_params B (GET request) true))
          (fun e => match e with
                    | InvalidParams msg => Some (raise (ParseError msg))
                    | _ => None
                    end) ;;
      try_except
        (_get_events_snuba now request group environments query start end_)
        (fun exc => match exc with
                    | GroupEventsError msg => Some (raise (ParseError msg))
                    | _ => None
                    end)
  end.

End Endpoint.

(** Modelled from the spec: what the transport layer makes of an exception
    that leaves [get] (spec 4.3, 4.6): a [ParseError] becomes a 400 response
    whose body is [{detail: <message>}].  Other exceptions are not decided
    here. *)
Definition respond {Q} (m : M Q Response) : option Response :=
  match result m with
  | Ret resp => Some resp
  | Raise (ParseError detail) => Some {| status := 400; data := Detail detail |}
  | Raise _ => None
  end.

(** ** Reading a trace *)

(** The step of the request a call belongs to: resolving the query (0),
    resolving the time window (1), the direct-hit lookup (2), fetching and
    serializing pages (3). *)
Definition phase {Q} (ev : call Q) : nat :=
  match ev with
  | EvGetEnvironments | EvParseQuery _ => 0
  | EvGetDateRange => 1
  | EvDirectLookup _ _ _ => 2
  | EvBuildQuery _ _ _ _ _ _ | EvRunQuery _ _ | EvBindNodes _ | EvSerialize _ _ => 3
  end.

Definition phase_le {Q} (a b : call Q) : Prop := (phase a <= phase b)%nat.

(** The query parameters a call to the storage side was given. *)
Definition event_params {Q} (ev : call Q) : option Params :=
  match ev with
  | EvDirectLookup _ params _ => Some params
  | EvBuildQuery _ params _ _ _ _ => Some params
  | _ => None
  end.

Definition is_bind_nodes {Q} (ev : call Q) : bool :=
  match ev with EvBindNodes _ => true | _ => false end.

Definition is_direct_lookup {Q} (ev : call Q) : bool :=
  match ev with EvDirectLookup _ _ _ => true | _ => false end.

Definition count {Q} (p : call Q -> bool) (t : list (call Q)) : nat :=
  List.length (filter p t).

Definition is_parse_query {Q} (ev : call Q) : bool :=
  match ev with EvParseQuery _ => true | _ => false end.

Definition is_build_query {Q} (ev : call Q) : bool :=
  match ev with EvBuildQuery _ _ _ _ _ _ => true | _ => false end.

Definition is_run_query {Q} (ev : call Q) : bool :=
  match ev with EvRunQuery _ _ => true | _ => false end.

Definition is_serialize {Q} (ev : call Q) : bool :=
  match ev with EvSerialize _ _ => true | _ => false end.

Definition returned {A} (o : outcome A) : bool :=
  match o with Ret _ => true | Raise _ => false end.

(** How the numbers of build, run and hydration calls of a trace relate:
    every query that is run was built, at most one built query was not run,
    and hydration follows a run, and only when [full] is set.  After a run
    that [succeeded] nothing is left over. *)
Definition page_calls_balanced {Q} (full succeeded : bool) (t : list (call Q)) : Prop :=
  let built := count is_build_query t in
  let ran := count is_run_query t in
  let hydrated := count is_bind_nodes t in
  (hydrated <= ran)%nat
  /\ (ran <= built)%nat
  /\ (built <= ran + 1)%nat
  /\ (full = false -> hydrated = 0%nat)
  /\ (succeeded = true ->
      built = ran /\ hydrated = if full then ran else 0%nat).

(** ** A concrete set of collaborators

    A small in-memory stand-in for the collaborators, on which the endpoint
    can be run. *)
Module Sample.

(** The structured query of the sample builder keeps what it was built from. *)
Record Query := {
  q_query : string;
  q_params : Params;
  q_limit : Z;
  q_offset : Z;
  q_orderby : option string
}.

Definition org : Organization := {| org_id := 1 |}.
Definition proj : Project := {| organization := org; organization_id := 1 |}.
Definition group : Group :=
  {| group_id := 7; project_id := 3; project := proj; issue_category_name := "ERROR" |}.

(** 2023-11-14T22:13:20Z, in microseconds. *)
Definition now : datetime := 1700000000000000.

Definition known_id : string := "aaaaaaaaaaaaaaaaaaaaaaaaaaaaaaaa".
Definition unknown_id : string := "bbbbbbbbbbbbbbbbbbbbbbbbbbbbbbbb".

Definition stored : list Row :=
  [ {| row_id := known_id; row_project_id := 3; row_issue_id := 7;
       row_timestamp := "2023-11-14T10:00:00" |};
    {| row_id := "cccccccccccccccccccccccccccccccc"; row_project_id := 3;
       row_issue_id := 7; row_timestamp := "2023-11-13T10:00:00" |};
    {| row_id := "dddddddddddddddddddddddddddddddd"; row_project_id := 3;
       row_issue_id := 7; row_timestamp := "2023-11-12T10:00:00" |} ].

Definition environments_of (request : Request) : list Environment :=
  map (fun kv => {| env_name := snd kv |})
      (filter (fun kv => String.eqb (fst kv) "environment") (GET request)).

Definition sample_get_environments (request : Request) (_ : Organization)
  : outcome (list Environment) :=
  if in_tuple (QueryDict_get (GET request) "environment") ["missing"]
  then Raise ResourceDoesNotExist
  else Ret (environments_of request).

Definition sample_parse_query (_ : list Project) (raw : string) (_ : User)
           (_ : list Environment) : outcome (list (string * string)) :=
  if String.eqb raw "is:unresolved foo" then
    Ret [("status", "unresolved"); ("query", "foo")]
  else if String.eqb raw "((" then
    Raise (InvalidQuery "Invalid query: unbalanced parenthesis")
  else Ret [("query", raw)].

Definition parse_date (s : string) : option datetime :=
  if String.eqb s "2023-01-01T00:00:00" then Some 1672531200000000
  else if String.eqb s "2023-11-01T00:00:00" then Some 1698796800000000
  else None.

Definition sample_get_date_range (params : QueryDict) (_ : bool)
  : outcome (option datetime * option datetime) :=
  match QueryDict_get params "start", QueryDict_get params "end" with
  | None, None => Ret (None, None)
  | Some s, Some e =>
      match parse_date s, parse_date e with
      | Some s', Some e' =>
          if e' <? s' then Raise (InvalidParams "start must be before end")
          else Ret (Some s', Some e')
      | _, _ => Raise (InvalidParams "not a valid ISO8601 date query")
      end
  | Some s, None =>
      match parse_date s with
      | Some s' => Ret (Some s', None)
      | None => Raise (InvalidParams "not a valid ISO8601 date query")
      end
  | None, Some e =>
      match parse_date e with
      | Some e' => Ret (None, Some e')
      | None => Raise (InvalidParams "not a valid ISO8601 date query")
      end
  end.

Definition sample_qualifies (query : option string) : bool :=
  match query with
  | Some q => Nat.eqb (String.length q) 32
  | None => false
  end.

Definition sample_direct_lookup (query : option string) (_ : Params) (_ : string)
           (_ : Group) : outcome (option Event) :=
  match query with
  | Some q =>
      if String.eqb q known_id then
        Ret (Some {| event_id := known_id; ev_project_id := 3;
                     snuba_data := {| sd_event_id := known_id; sd_group_id := 7;
                                      sd_project_id := 3;
                                      sd_timestamp := "2023-11-14T10:00:00" |};
                     node := Some "payload" |})
      else Ret None
  | None => Ret None
  end.

Definition sample_builder (query : string) (params : Params) (_ : Group)
           (limit offset : Z) (orderby : option string) : outcome Query :=
  if String.eqb query "nosuchfield:1" then
    Raise (InvalidSearchQuery "nosuchfield is not a valid field")
  else Ret {| q_query := query; q_params := params; q_limit := limit;
              q_offset := offset; q_orderby := orderby |}.

Definition sample_run_query (q : Query) (_ : string) : outcome (list Row) :=
  let ordered := match q_orderby q with
                 | Some _ => rev stored
                 | None => stored
                 end in
  Ret (firstn (Z.to_nat (q_limit q)) (skipn (Z.to_nat (q_offset q)) ordered)).

(** Modelled from the spec: the generic offset paginator of 4.4, which
    calls the page-fetch callback with increasing offsets until a page comes
    back with fewer than [limit] rows or the page cap is reached. *)
Fixpoint offset_pages (cap : nat) (offset limit : Z) (acc : list Event) : Driver :=
  match cap with
  | O => Done acc
  | S cap' =>
      Fetch offset limit
            (fun rows =>
               if Z.of_nat (List.length rows) <? limit then Done (acc ++ rows)
               else offset_pages cap' (offset + limit) limit (acc ++ rows))
  end.

Definition backend : Collaborators Query :=
  {| get_environments := sample_get_environments;
     parse_query := sample_parse_query;
     get_date_range_from_params := sample_get_date_range;
     direct_hit_qualifies := sample_qualifies;
     direct_lookup := sample_direct_lookup;
     direct_hit_render := fun _ ev => event_id ev;
     get_query_builder_for_group := sample_builder;
     run_query := sample_run_query;
     node_payload := fun _ id => ("payload of " ++ id)%string;
     serialize := fun events _ _ => map event_id events;
     paginator := fun _ => offset_pages 3 0 2 [] |}.

(** The same storage, node store and query builder behind another
    paginator and other serializers. *)
Definition backend_single_page : Collaborators Query :=
  {| get_environments := sample_get_environments;
     parse_query := sample_parse_query;
     get_date_range_from_params := sample_get_date_range;
     direct_hit_qualifies := fun _ => false;
     direct_lookup := sample_direct_lookup;
     direct_hit_render := fun _ _ => "event";
     get_query_builder_for_group := sample_builder;
     run_query := sample_run_query;
     node_payload := fun _ id => ("payload of " ++ id)%string;
     serialize := fun events _ _ => map (fun _ => "event") events;
     paginator := fun _ => offset_pages 1 0 100 [] |}.

Definition request_of (params : QueryDict) : Request :=
  {| GET := params; user := "alice" |}.

End Sample.

(** The sample collaborators with a query builder and a storage engine that
    fail on some queries. *)
Module Faulty.

Definition faulty_builder (query : string) (params : Params) (group : Group)
           (limit offset : Z) (orderby : option string) : outcome Sample.Query :=
  if String.eqb query "slow" then Raise (OtherError "query builder timed out")
  else Sample.sample_builder query params group limit offset orderby.

Definition faulty_run_query (q : Sample.Query) (referrer : string)
  : outcome (list Row) :=
  if String.eqb (Sample.q_query q) "retention" then
    Raise (GroupEventsError "window is outside of retention")
  else if String.eqb (Sample.q_query q) "column" then
    Raise (InvalidSearchQuery "unknown column")
  else Sample.sample_run_query q referrer.

Definition backend : Collaborators Sample.Query :=
  {| get_environments := Sample.sample_get_environments;
     parse_query := Sample.sample_parse_query;
     get_date_range_from_params := Sample.sample_get_date_range;
     direct_hit_qualifies := Sample.sample_qualifies;
     direct_lookup := Sample.sample_direct_lookup;
     direct_hit_render := fun _ ev => event_id ev;
     get_query_builder_for_group := faulty_builder;
     run_query := faulty_run_query;
     node_payload := fun _ id => ("payload of " ++ id)%string;
     serialize := fun events _ _ => map event_id events;
     paginator := fun _ => Sample.offset_pages 3 0 2 [] |}.

End Faulty.

(** ** Reasoning about computations *)

Section MonadFacts.

Context {Q : Type}.

Lemma trace_bind {A B} (m : M Q A) (f : A -> M Q B) :
  trace (bind m f) =
  trace m ++ match result m with Ret a => trace (f a) | Raise _ => [] end.
Proof.
  destruct m as [t [a | e]]; cbn.
  - destruct (f a); reflexivity.
  - now rewrite app_nil_r.
Qed.

Lemma result_bind {A B} (m : M Q A) (f : A -> M Q B) :
  result (bind m f) =
  match result m with Ret a => result (f a) | Raise e => Raise e end.
Proof.
  destruct m as [t [a | e]]; cbn; [destruct (f a) |]; reflexivity.
Qed.

Lemma trace_try_except {A} (m : M Q A) (h : exn -> option (M Q A)) :
  trace (try_except m h) =
  trace m ++ match result m with
             | Ret _ => []
             | Raise e => match h e with Some k => trace k | None => [] end
             end.
Proof.
  destruct m as [t [a | e]]; cbn.
  - now rewrite app_nil_r.
  - destruct (h e) as [[t' r] |]; cbn; [reflexivity | now rewrite app_nil_r].
Qed.

Lemma result_try_except {A} (m : M Q A) (h : exn -> option (M Q A)) :
  result (try_except m h) =
  match result m with
  | Ret a => Ret a
  | Raise e => match h e with Some k => result k | None => Raise e end
  end.
Proof.
  destruct m as [t [a | e]]; cbn; [reflexivity |].
  destruct (h e) as [[t' r] |]; reflexivity.
Qed.

Lemma M_eta {A} (m : M Q A) : m = (trace m, result m).
Proof. now destruct m. Qed.

End MonadFacts.

(** ** The shape of each function's run *)

Section EndpointFacts.

Context {Q : Type}.
Variable B : Collaborators Q.

Lemma data_fn_run request params group referrer orderby full offset limit :
  data_fn B request params group referrer orderby full offset limit =
  let raw := QueryDict_get_default (GET request) "query" "" in
  let build := EvBuildQuery raw params group limit offset orderby in
  match get_query_builder_for_group B raw params group limit offset orderby with
  | Raise (InvalidSearchQuery msg) => ([build], Raise (ParseError msg))
  | Raise e => ([build], Raise e)
  | Ret sq =>
      match run_query B sq referrer with
      | Raise e => ([build; EvRunQuery sq referrer], Raise e)
      | Ret rows =>
          if full then
            ([build; EvRunQuery sq referrer; EvBindNodes (map (event_of_row) rows)],
             Ret (map (attach_node B) (map event_of_row rows)))
          else ([build; EvRunQuery sq referrer], Ret (map event_of_row rows))
      end
  end.
Proof.
  unfold data_fn, invoke, try_except, bind_nodes, invoke, ret, raise.
  destruct (get_query_builder_for_group B _ params group limit offset orderby)
    as [sq | []]; cbn; try reflexivity.
  destruct (run_query B sq referrer) as [rows | e]; cbn; [| reflexivity].
  destruct full; reflexivity.
Qed.

Lemma direct_hit_run request query params referrer group :
  get_direct_hit_response B request query params referrer group =
  if direct_hit_qualifies B query then
    match direct_lookup B query params referrer group with
    | Ret (Some ev) =>
        ([EvDirectLookup query params referrer],
         Ret (Some {| status := 200;
                      data := EventList [direct_hit_render B request ev] |}))
    | Ret None => ([EvDirectLookup query params referrer], Ret None)
    | Raise e => ([EvDirectLookup query params referrer], Raise e)
    end
  else ([], Ret None).
Proof.
  unfold get_direct_hit_response, invoke, ret.
  destruct (direct_hit_qualifies B query); [| reflexivity].
  destruct (direct_lookup B query params referrer group) as [[ev |] | e];
    reflexivity.
Qed.

(** A direct-hit check makes at most one call, a lookup with the parameters
    it was handed. *)
Lemma direct_hit_trace request query params referrer group :
  trace (get_direct_hit_response B request query params referrer group) = []
  \/ trace (get_direct_hit_response B request query params referrer group)
     = [EvDirectLookup query params referrer].
Proof.
  rewrite direct_hit_run.
  destruct (direct_hit_qualifies B query); [| now left].
  destruct (direct_lookup B query params referrer group) as [[ev |] | e];
    now right.
Qed.

(** Every call made while paginating is made by some page fetch. *)
Lemma run_paginator_calls (fetch : Z -> Z -> M Q (list Event)) (d : Driver) ev :
  In ev (trace (run_paginator d fetch)) ->
  exists offset limit, In ev (trace (fetch offset limit)).
Proof.
  induction d as [rows | offset limit k IH]; cbn [run_paginator].
  - intros [].
  - rewrite trace_bind. intros Hin. apply in_app_or in Hin.
    destruct Hin as [Hin | Hin]; [now exists offset, limit |].
    destruct (result (fetch offset limit)) as [rows | e]; [| destruct Hin].
    now apply (IH rows).
Qed.

(** A page fetch that raises ends the pagination with its exception. *)
Lemma run_paginator_invalid_search request params group referrer orderby full
      (d : Driver) q p g l o ob msg :
  In (EvBuildQuery q p g l o ob)
     (trace (run_paginator d (data_fn B request params group referrer orderby full))) ->
  get_query_builder_for_group B q p g l o ob = Raise (InvalidSearchQuery msg) ->
  result (run_paginator d (data_fn B request params group referrer orderby full))
  = Raise (ParseError msg).
Proof.
  intros Hin Hbuild.
  induction d as [rows | offset limit k IH]; cbn [run_paginator] in *.
  - destruct Hin.
  - rewrite trace_bind in Hin. rewrite result_bind.
    rewrite data_fn_run in *. cbv zeta in *.
    destruct (get_query_builder_for_group B _ params group limit offset orderby)
      as [sq | e] eqn:Hb.
    + destruct (run_query B sq referrer) as [rows | e] eqn:Hr.
      * destruct full; cbn in Hin |- *.
        -- destruct Hin as [Heq | [Heq | [Heq | Hin]]]; try discriminate.
           ++ injection Heq as <- <- <- <- <- <-. congruence.
           ++ now apply (IH _ Hin).
        -- destruct Hin as [Heq | [Heq | Hin]]; try discriminate.
           ++ injection Heq as <- <- <- <- <- <-. congruence.
           ++ now apply (IH _ Hin).
      * cbn in Hin. destruct Hin as [Heq | [Heq | []]]; try discriminate.
        injection Heq as <- <- <- <- <- <-. congruence.
    + assert (Hone : In (@EvBuildQuery Q q p g l o ob)
                        [EvBuildQuery (QueryDict_get_default (GET request) "query" "")
                                      params group limit offset orderby]).
      { destruct e; cbn in Hin |- *; exact Hin. }
      destruct Hone as [Heq | []].
      injection Heq as <- <- <- <- <- <-.
      rewrite Hbuild in Hb. injection Hb as <-. reflexivity.
Qed.

Lemma snuba_run now request group environments query start end_ :
  _get_events_snuba B now request group environments query start end_ =
  let params := initial_params now group start end_ in
  let referrer := group_referrer group in
  let hit := get_direct_hit_response B request query params
                                     (referrer ++ ".direct-hit") group in
  match result hit with
  | Raise e => (trace hit, Raise e)
  | Ret (Some resp) => (trace hit, Ret resp)
  | Ret None =>
      let full := request_full request in
      let serializer := if full then EventSerializer else SimpleEventSerializer in
      let pages := run_paginator (paginator B request)
                                 (data_fn B request (page_params params environments)
                                          group referrer (request_orderby request) full) in
      match result pages with
      | Raise e => (trace hit ++ trace pages, Raise e)
      | Ret rows =>
          (trace hit ++ trace pages ++ [EvSerialize rows serializer],
           Ret {| status := 200;
                  data := EventList (serialize B rows (user request) serializer) |})
      end
  end.
Proof.
  unfold _get_events_snuba, paginate. cbv zeta.
  destruct (get_direct_hit_response B request query _ _ group)
    as [t [[resp |] | e]]; cbn.
  - rewrite ?app_nil_r. reflexivity.
  - destruct (run_paginator _ _) as [t' [rows | e]]; cbn; rewrite ?app_nil_r;
      reflexivity.
  - reflexivity.
Qed.

Lemma resolve_query_run request group :
  resolve_query B request group =
  match get_environments B request (organization (project group)) with
  | Raise e => ([EvGetEnvironments], Raise e)
  | Ret environments =>
      match QueryDict_get (GET request) "query" with
      | Some (String c rest as raw) =>
          match parse_query B [project group] raw (user request) environments with
          | Raise e => ([EvGetEnvironments; EvParseQuery raw], Raise e)
          | Ret query_kwargs =>
              ([EvGetEnvironments; EvParseQuery raw],
               Ret (environments, dict_pop query_kwargs "query"))
          end
      | _ => ([EvGetEnvironments], Ret (environments, None))
      end
  end.
Proof.
  unfold resolve_query, _get_search_query, invoke, ret.
  destruct (get_environments B request _) as [environments | e]; cbn;
    [| reflexivity].
  destruct (QueryDict_get (GET request) "query") as [[| c rest] |]; cbn;
    try reflexivity.
  destruct (parse_query B _ _ _ _) as [kw | e]; reflexivity.
Qed.

Lemma resolve_query_phase request group ev :
  In ev (trace (resolve_query B request group)) -> phase ev = 0%nat.
Proof.
  rewrite resolve_query_run.
  destruct (get_environments B request _) as [environments | e]; cbn.
  - destruct (QueryDict_get (GET request) "query") as [[| c rest] |]; cbn.
    + intros [<- | []]; reflexivity.
    + destruct (parse_query B _ _ _ _) as [kw | e]; cbn;
        intros [<- | [<- | []]]; reflexivity.
    + intros [<- | []]; reflexivity.
  - intros [<- | []]; reflexivity.
Qed.

Lemma get_run now request group :
  get B now request group =
  let res := resolve_query B request group in
  match result res with
  | Raise (InvalidQuery msg) =>
      (trace res, Ret {| status := 400; data := Detail msg |})
  | Raise NoResults | Raise ResourceDoesNotExist =>
      (trace res, Ret {| status := 200; data := EventList [] |})
  | Raise e => (trace res, Raise e)
  | Ret (environments, query) =>
      match get_date_range_from_params B (GET request) true with
      | Raise (InvalidParams msg) =>
          (trace res ++ [EvGetDateRange], Raise (ParseError msg))
      | Raise e => (trace res ++ [EvGetDateRange], Raise e)
      | Ret (start, end_) =>
          let run := _get_events_snuba B now request group environments query
                                       start end_ in
          (trace res ++ EvGetDateRange :: trace run,
           match result run with
           | Raise (GroupEventsError msg) => Raise (ParseError msg)
           | other => other
           end)
      end
  end.
Proof.
  unfold get. cbv zeta.
  destruct (resolve_query B request group) as [t [[environments query] | e]]; cbn.
  - rewrite app_nil_r.
    destruct (get_date_range_from_params B (GET request) true)
      as [[start end_] | e]; cbn.
    + destruct (_get_events_snuba B now request group environments query start end_)
        as [t' [resp | e]]; cbn; [reflexivity |].
      destruct e; cbn; rewrite ?app_nil_r; reflexivity.
    + destruct e; cbn; rewrite ?app_nil_r; reflexivity.
  - destruct e; cbn; rewrite ?app_nil_r; reflexivity.
Qed.

Lemma data_fn_calls request params group referrer orderby full offset limit ev :
  In ev (trace (data_fn B request params group referrer orderby full offset limit)) ->
  ev = EvBuildQuery (QueryDict_get_default (GET request) "query" "")
                    params group limit offset orderby
  \/ (exists sq,
        get_query_builder_for_group B (QueryDict_get_default (GET request) "query" "")
                                    params group limit offset orderby = Ret sq
        /\ ev = EvRunQuery sq referrer)
  \/ (exists events, full = true /\ ev = EvBindNodes events).
Proof.
  rewrite data_fn_run. cbv zeta.
  destruct (get_query_builder_for_group B _ params group limit offset orderby)
    as [sq | e].
  - destruct (run_query B sq referrer) as [rows | e]; [destruct full |]; cbn;
      intros Hin; repeat (destruct Hin as [<- | Hin]); try contradiction;
      eauto 6.
  - destruct e; cbn; intros [<- | []]; auto.
Qed.

Lemma snuba_calls now request group environments query start end_ ev :
  In ev (trace (_get_events_snuba B now request group environments query start end_)) ->
  ev = EvDirectLookup query (initial_params now group start end_)
                      (group_referrer group ++ ".direct-hit")
  \/ (exists offset limit,
        In ev (trace (data_fn B request
                              (page_params (initial_params now group start end_)
                                           environments)
                              group (group_referrer group) (request_orderby request)
                              (request_full request) offset limit)))
  \/ (exists rows serializer, ev = EvSerialize rows serializer).
Proof.
  rewrite snuba_run. cbv zeta.
  pose proof (direct_hit_trace request query (initial_params now group start end_)
                (group_referrer group ++ ".direct-hit") group) as Hhit.
  assert (Hdl : forall e, In e (trace (get_direct_hit_response B request query
                  (initial_params now group start end_)
                  (group_referrer group ++ ".direct-hit") group)) ->
                e = EvDirectLookup query (initial_params now group start end_)
                      (group_referrer group ++ ".direct-hit")).
  { intros e He. destruct Hhit as [Hhit | Hhit]; rewrite Hhit in He.
    - destruct He.
    - destruct He as [<- | []]. reflexivity. }
  destruct (result (get_direct_hit_response B request query _ _ group))
    as [[resp |] | e]; cbn [trace fst]; try (intros Hin; left; now apply Hdl).
  destruct (result (run_paginator _ _)) as [rows | e] eqn:Hpages; cbn [trace fst];
    intros Hin; apply in_app_or in Hin; destruct Hin as [Hin | Hin];
    try (left; now apply Hdl).
  - apply in_app_or in Hin. destruct Hin as [Hin | [<- | []]].
    + right; left. now apply run_paginator_calls in Hin.
    + right; right. eauto.
  - right; left. now apply run_paginator_calls in Hin.
Qed.

Lemma get_calls now request group ev :
  In ev (trace (get B now request group)) ->
  In ev (trace (resolve_query B request group))
  \/ ev = EvGetDateRange
  \/ (exists environments query start end_,
        result (resolve_query B request group) = Ret (environments, query)
        /\ get_date_range_from_params B (GET request) true = Ret (start, end_)
        /\ In ev (trace (_get_events_snuba B now request group environments query
                                            start end_))).
Proof.
  rewrite get_run. cbv zeta.
  destruct (result (resolve_query B request group)) as [[environments query] | e].
  - destruct (get_date_range_from_params B (GET request) true)
      as [[start end_] | e].
    + cbn [trace fst]. intros Hin. apply in_app_or in Hin.
      destruct Hin as [Hin | [<- | Hin]]; auto.
      right; right. exists environments, query, start, end_. auto.
    + assert (Hin' : In ev (trace (resolve_query B request group) ++ [EvGetDateRange])
                     -> In ev (trace (resolve_query B request group))
                        \/ ev = EvGetDateRange).
      { intros Hin. apply in_app_or in Hin. destruct Hin as [Hin | [<- | []]]; auto. }
      destruct e; cbn [trace fst]; intros Hin; apply Hin' in Hin; tauto.
  - destruct e; cbn [trace fst]; auto.
Qed.

(** Every query-parameter dict that reaches the storage side during a
    request carries the scope and the window of [initial_params]. *)
Lemma snuba_params now request group environments query start end_ ev params :
  In ev (trace (_get_events_snuba B now request group environments query start end_)) ->
  event_params ev = Some params ->
  (params = initial_params now group start end_ /\ is_direct_lookup ev = true)
  \/ (params = page_params (initial_params now group start end_) environments
      /\ is_direct_lookup ev = false).
Proof.
  intros Hin Hp. apply snuba_calls in Hin.
  destruct Hin as [-> | [(offset & limit & Hin) | (rows & sz & ->)]].
  - injection Hp as <-. now left.
  - apply data_fn_calls in Hin.
    destruct Hin as [-> | [(sq & _ & ->) | (events & _ & ->)]]; try discriminate.
    injection Hp as <-. now right.
  - discriminate.
Qed.

Lemma page_params_window params environments :
  p_start (page_params params environments) = p_start params
  /\ p_end (page_params params environments) = p_end params
  /\ p_project_id (page_params params environments) = p_project_id params
  /\ p_organization_id (page_params params environments) = p_organization_id params.
Proof. destruct environments; cbn; auto. Qed.

End EndpointFacts.

Section RequestFacts.

Context {Q : Type}.
Variable B : Collaborators Q.

Lemma resolve_query_environments request group environments query :
  result (resolve_query B request group) = Ret (environments, query) ->
  get_environments B request (organization (project group)) = Ret environments.
Proof.
  rewrite resolve_query_run.
  destruct (get_environments B request _) as [envs | e]; [| discriminate].
  destruct (QueryDict_get (GET request) "query") as [[| c rest] |]; cbn;
    try (destruct (parse_query B _ _ _ _)); cbn; congruence.
Qed.

(** The parameters of every storage-side call of a request: those of
    [initial_params] for the direct-hit lookup, those of [page_params] for a
    page query. *)
Lemma get_params now request group ev params :
  In ev (trace (get B now request group)) ->
  event_params ev = Some params ->
  exists environments query start end_,
    result (resolve_query B request group) = Ret (environments, query)
    /\ get_date_range_from_params B (GET request) true = Ret (start, end_)
    /\ ((params = initial_params now group start end_
         /\ is_direct_lookup ev = true)
        \/ (params = page_params (initial_params now group start end_) environments
            /\ is_direct_lookup ev = false)).
Proof.
  intros Hin Hp. apply get_calls in Hin.
  destruct Hin as [Hin | [-> | (environments & query & start & end_ & Hres & Hdate & Hin)]].
  - apply resolve_query_phase in Hin. destruct ev; discriminate.
  - discriminate.
  - exists environments, query, start, end_.
    repeat split; auto. eapply snuba_params; eauto.
Qed.

Lemma page_params_explicit now group start end_ environments :
  page_params (initial_params now group start end_) environments =
  {| p_project_id := [project_id group];
     p_organization_id := organization_id (project group);
     p_start := match start with Some s => s | None => now - timedelta_days 90 end;
     p_end := match end_ with Some e => e | None => now end;
     p_environment := match environments with
                      | [] => None
                      | _ :: _ => Some (map env_name environments)
                      end |}.
Proof. destruct environments; reflexivity. Qed.

End RequestFacts.

(** ** The claims *)

(** C1, as amended.  For every page request, the structured query handed to
    the storage layer is the one the query builder returns for the raw
    ["query"] request parameter ([""] when absent), not for the predicate
    [_get_search_query] resolved, together with the project and organization
    scope, the time window, the environment names (when some environment was
    resolved), [limit], [offset] and [orderby] ([None], or ["sample"]).  The
    resolved [query] does not occur in what the builder is given. *)
Theorem page_query_built_from_request_query {Q} (B : Collaborators Q)
        (now : datetime) (request : Request) (group : Group)
        (environments : list Environment) (query : option string)
        (start end_ : option datetime) :
  let raw := QueryDict_get_default (GET request) "query" "" in
  let params :=
    {| p_project_id := [project_id group];
       p_organization_id := organization_id (project group);
       p_start := match start with Some s => s | None => now - timedelta_days 90 end;
       p_end := match end_ with Some e => e | None => now end;
       p_environment := match environments with
                        | [] => None
                        | _ :: _ => Some (map env_name environments)
                        end |} in
  let orderby := if request_sample request then Some "sample" else None in
  (forall offset limit,
      exists rest,
        trace (data_fn B request params group (group_referrer group) orderby
                       (request_full request) offset limit)
        = EvBuildQuery raw params group limit offset orderby :: rest)
  /\ (forall ev,
         In ev (trace (_get_events_snuba B now request group environments query
                                         start end_)) ->
         match ev with
         | EvBuildQuery q p g limit offset ob =>
             q = raw /\ p = params /\ g = group /\ ob = orderby
         | EvRunQuery sq referrer =>
             referrer = group_referrer group
             /\ exists offset limit,
                 get_query_builder_for_group B raw params group limit offset orderby
                 = Ret sq
         | _ => True
         end).
Proof.
  cbv zeta. split.
  - intros offset limit. rewrite data_fn_run. cbv zeta.
    destruct (get_query_builder_for_group B _ _ group limit offset _) as [sq | e].
    + destruct (run_query B sq _) as [rows | e]; [destruct (request_full request) |];
        eexists; reflexivity.
    + destruct e; eexists; reflexivity.
  - intros ev Hin. apply snuba_calls in Hin.
    rewrite page_params_explicit in Hin. fold (request_orderby request).
    destruct Hin as [-> | [(offset & limit & Hin) | (rows & sz & ->)]]; try exact I.
    apply data_fn_calls in Hin.
    destruct Hin as [-> | [(sq & Hsq & ->) | (events & _ & ->)]]; try exact I.
    + auto.
    + split; [reflexivity |]. now exists offset, limit.
Qed.

(** C1, witness: the sample request whose query is ["is:unresolved foo"]. *)
Lemma page_query_built_from_request_query_witness :
  match @EvBuildQuery Sample.Query "is:unresolved foo"
          (initial_params Sample.now Sample.group None None) Sample.group 2 0 None
  with
  | EvBuildQuery q p g limit offset ob =>
      q = "is:unresolved foo"
      /\ p = initial_params Sample.now Sample.group None None
      /\ g = Sample.group /\ ob = None
  | _ => True
  end.
Proof.
  apply (proj2 (page_query_built_from_request_query
                  Sample.backend Sample.now
                  (Sample.request_of [("query", "is:unresolved foo")])
                  Sample.group [] (Some "foo") None None)
               (EvBuildQuery "is:unresolved foo"
                             (initial_params Sample.now Sample.group None None)
                             Sample.group 2 0 None)).
  vm_compute. left. reflexivity.
Defined.

(** C1, counterexample to the claim as stated: on the sample request with
    query ["is:unresolved foo"], [_get_search_query] resolves the predicate
    ["foo"], yet every query the page fetches build is built from the raw
    string ["is:unresolved foo"]. *)
Lemma page_query_not_built_from_resolved_predicate :
  let request := Sample.request_of [("query", "is:unresolved foo")] in
  let run := get Sample.backend Sample.now request Sample.group in
  result (_get_search_query Sample.backend request Sample.group []) = Ret (Some "foo")
  /\ In (EvBuildQuery "is:unresolved foo"
                      (initial_params Sample.now Sample.group None None)
                      Sample.group 2 0 None) (trace run)
  /\ (forall q p g l o ob, In (EvBuildQuery q p g l o ob) (trace run) ->
                           q = "is:unresolved foo" /\ q <> "foo").
Proof.
  cbv zeta. split; [reflexivity |]. split.
  - vm_compute. auto 10.
  - intros q p g l o ob Hin. vm_compute in Hin.
    repeat (destruct Hin as [Heq | Hin]; [try discriminate |]); try contradiction;
      injection Heq as <- _ _ _ _ _; (split; [reflexivity | discriminate]).
Qed.

Section Ordering.

Context {Q : Type}.
Variable B : Collaborators Q.

Lemma same_phase_sorted (n : nat) (t : list (call Q)) :
  (forall ev, In ev t -> phase ev = n) -> StronglySorted phase_le t.
Proof.
  induction t as [| a t IH]; intros Hall; constructor.
  - apply IH. intros ev Hev. apply Hall. now right.
  - apply Forall_forall. intros b Hb. unfold phase_le.
    rewrite (Hall a (or_introl eq_refl)), (Hall b (or_intror Hb)). constructor.
Qed.

Lemma phase_sorted_app (t1 t2 : list (call Q)) :
  StronglySorted phase_le t1 ->
  StronglySorted phase_le t2 ->
  (forall a b, In a t1 -> In b t2 -> phase_le a b) ->
  StronglySorted phase_le (t1 ++ t2).
Proof.
  induction t1 as [| a t1 IH]; intros H1 H2 Hcross; cbn; [exact H2 |].
  inversion H1 as [| ? ? Hs Hf]; subst. constructor.
  - apply IH; auto. intros x y Hx Hy. apply Hcross; [now right | exact Hy].
  - apply Forall_forall. intros b Hb. apply in_app_or in Hb.
    destruct Hb as [Hb | Hb].
    + rewrite Forall_forall in Hf. now apply Hf.
    + apply Hcross; [now left | exact Hb].
Qed.

Lemma pagination_phase request params group referrer orderby full d ev :
  In ev (trace (run_paginator d (data_fn B request params group referrer orderby full))) ->
  phase ev = 3%nat.
Proof.
  intros Hin. apply run_paginator_calls in Hin.
  destruct Hin as (offset & limit & Hin). apply data_fn_calls in Hin.
  destruct Hin as [-> | [(sq & _ & ->) | (events & _ & ->)]]; reflexivity.
Qed.

Lemma direct_hit_phase request query params referrer group ev :
  In ev (trace (get_direct_hit_response B request query params referrer group)) ->
  phase ev = 2%nat.
Proof.
  destruct (direct_hit_trace B request query params referrer group) as [-> | ->].
  - intros [].
  - intros [<- | []]. reflexivity.
Qed.

Lemma snuba_sorted now request group environments query start end_ :
  StronglySorted phase_le
    (trace (_get_events_snuba B now request group environments query start end_)).
Proof.
  rewrite snuba_run. cbv zeta.
  set (hit := get_direct_hit_response B request query _ _ group).
  assert (Hhit : StronglySorted phase_le (trace hit)).
  { apply (same_phase_sorted 2). intros ev. apply direct_hit_phase. }
  destruct (result hit) as [[resp |] | e]; cbn [trace fst]; try exact Hhit.
  set (pages := run_paginator _ _).
  assert (Hpages : forall ev, In ev (trace pages) -> phase ev = 3%nat).
  { intros ev. apply pagination_phase. }
  assert (Hcross : forall t, (forall ev, In ev t -> phase ev = 3%nat) ->
                             StronglySorted phase_le (trace hit ++ t)).
  { intros t Ht. apply phase_sorted_app; auto.
    - now apply (same_phase_sorted 3).
    - intros a b Ha Hb. unfold phase_le.
      rewrite (direct_hit_phase _ _ _ _ _ _ Ha), (Ht _ Hb). repeat constructor. }
  destruct (result pages) as [rows | e]; cbn [trace fst]; apply Hcross; auto.
  intros ev Hev. apply in_app_or in Hev. destruct Hev as [Hev | [<- | []]]; auto.
Qed.

Lemma snuba_phase now request group environments query start end_ ev :
  In ev (trace (_get_events_snuba B now request group environments query start end_)) ->
  (2 <= phase ev)%nat.
Proof.
  intros Hin. apply snuba_calls in Hin.
  destruct Hin as [-> | [(offset & limit & Hin) | (rows & sz & ->)]]; cbn; try lia.
  apply data_fn_calls in Hin.
  destruct Hin as [-> | [(sq & _ & ->) | (events & _ & ->)]]; cbn; lia.
Qed.

End Ordering.

(** C2, as amended.  The steps of a request come in the order: query
    resolution, then parsing of the start/end parameters, then direct-hit
    detection, then pagination.  No direct-hit lookup and no page fetch is
    made unless the window parameters were parsed successfully before it; a
    request whose window parameters are invalid ends in a 400 [ParseError]
    right after the parse, whether or not its query qualifies as a direct
    hit. *)
Theorem request_steps_in_order {Q} (B : Collaborators Q)
        (now : datetime) (request : Request) (group : Group) :
  StronglySorted phase_le (trace (get B now request group))
  /\ (forall ev,
         In ev (trace (get B now request group)) -> (2 <= phase ev)%nat ->
         In EvGetDateRange (trace (get B now request group))
         /\ exists start end_,
             get_date_range_from_params B (GET request) true = Ret (start, end_))
  /\ (forall environments query msg,
         result (resolve_query B request group) = Ret (environments, query) ->
         get_date_range_from_params B (GET request) true = Raise (InvalidParams msg) ->
         get B now request group
         = (trace (resolve_query B request group) ++ [EvGetDateRange],
            Raise (ParseError msg))
         /\ respond (get B now request group)
            = Some {| status := 400; data := Detail msg |}).
Proof.
  pose proof (resolve_query_phase B request group) as Hres0.
  assert (Hres : StronglySorted phase_le (trace (resolve_query B request group))).
  { now apply (same_phase_sorted 0). }
  assert (Hdate : StronglySorted phase_le
                    (trace (resolve_query B request group) ++ [EvGetDateRange])).
  { apply phase_sorted_app; auto.
    - now apply (same_phase_sorted 1); intros ev [<- | []].
    - intros a b Ha [<- | []]. unfold phase_le. rewrite (Hres0 _ Ha). cbn. lia. }
  split; [| split].
  - rewrite get_run. cbv zeta.
    destruct (result (resolve_query B request group)) as [[environments query] | e].
    + destruct (get_date_range_from_params B (GET request) true)
        as [[start end_] | e].
      * cbn [trace fst].
        change (trace (resolve_query B request group)
                ++ EvGetDateRange
                   :: trace (_get_events_snuba B now request group environments
                                               query start end_))
          with (trace (resolve_query B request group)
                ++ [EvGetDateRange]
                ++ trace (_get_events_snuba B now request group environments
                                            query start end_)).
        rewrite app_assoc. apply phase_sorted_app; auto.
        -- apply snuba_sorted.
        -- intros a b Ha Hb. apply snuba_phase in Hb. unfold phase_le.
           apply in_app_or in Ha. destruct Ha as [Ha | [<- | []]].
           ++ rewrite (Hres0 _ Ha). lia.
           ++ cbn. lia.
      * destruct e; exact Hdate.
    + destruct e; exact Hres.
  - intros ev Hin Hphase. pose proof Hin as Hcase. apply get_calls in Hcase.
    destruct Hcase as [Hcase | [-> | (environments & query & start & end_ & Hr & Hd & _)]].
    + apply Hres0 in Hcase. lia.
    + cbn in Hphase. lia.
    + split; [| eauto]. rewrite get_run. cbv zeta. rewrite Hr, Hd. cbn [trace fst].
      apply in_or_app. right. now left.
  - intros environments query msg Hr Hd. unfold respond.
    rewrite get_run. cbv zeta. rewrite Hr, Hd. split; reflexivity.
Qed.

(** C2, witness: the sample request with a qualifying event id and an
    inverted window. *)
Lemma request_steps_in_order_witness :
  let request := Sample.request_of [("query", Sample.known_id);
                                    ("start", "2023-11-01T00:00:00");
                                    ("end", "2023-01-01T00:00:00")] in
  get Sample.backend Sample.now request Sample.group
  = (trace (resolve_query Sample.backend request Sample.group) ++ [EvGetDateRange],
     Raise (ParseError "start must be before end"))
  /\ respond (get Sample.backend Sample.now request Sample.group)
     = Some {| status := 400; data := Detail "start must be before end" |}.
Proof.
  cbv zeta.
  apply (proj2 (proj2 (request_steps_in_order
                         Sample.backend Sample.now
                         (Sample.request_of [("query", Sample.known_id);
                                             ("start", "2023-11-01T00:00:00");
                                             ("end", "2023-01-01T00:00:00")])
                         Sample.group))
               [] (Some Sample.known_id) "start must be before end").
  - vm_compute. reflexivity.
  - vm_compute. reflexivity.
Defined.

(** C2, counterexample to the claim as stated: the query names an event the
    direct-hit lookup would find, and without window parameters the request is
    answered by the direct hit; with an inverted window the same query is
    answered by a 400 [ParseError] and no lookup is made. *)
Lemma direct_hit_does_not_precede_window_parsing :
  let hit_only := Sample.request_of [("query", Sample.known_id)] in
  let bad_window := Sample.request_of [("query", Sample.known_id);
                                       ("start", "2023-11-01T00:00:00");
                                       ("end", "2023-01-01T00:00:00")] in
  get Sample.backend Sample.now hit_only Sample.group
  = ([EvGetEnvironments; EvParseQuery Sample.known_id; EvGetDateRange;
      EvDirectLookup (Some Sample.known_id)
                     (initial_params Sample.now Sample.group None None)
                     "api.group-events.error.direct-hit"],
     Ret {| status := 200; data := EventList [Sample.known_id] |})
  /\ get Sample.backend Sample.now bad_window Sample.group
     = ([EvGetEnvironments; EvParseQuery Sample.known_id; EvGetDateRange],
        Raise (ParseError "start must be before end"))
  /\ count is_direct_lookup (trace (get Sample.backend Sample.now bad_window Sample.group))
     = 0%nat.
Proof. cbv zeta. repeat split; vm_compute; reflexivity. Qed.

(** C3.  When the direct-hit detector produces a response,
    [_get_events_snuba] returns it at once: its whole run is the one targeted
    lookup, with no query built, no page fetched, no hydration and no
    serialization. *)
Theorem direct_hit_bypasses_pagination {Q} (B : Collaborators Q)
        (now : datetime) (request : Request) (group : Group)
        (environments : list Environment) (query : option string)
        (start end_ : option datetime) (resp : Response) :
  result (get_direct_hit_response B request query
                                  (initial_params now group start end_)
                                  (group_referrer group ++ ".direct-hit") group)
  = Ret (Some resp) ->
  _get_events_snuba B now request group environments query start end_
  = ([EvDirectLookup query (initial_params now group start end_)
                     (group_referrer group ++ ".direct-hit")],
     Ret resp)
  /\ count is_direct_lookup
           (trace (_get_events_snuba B now request group environments query start end_))
     = 1%nat
  /\ (forall ev,
         In ev (trace (_get_events_snuba B now request group environments query
                                         start end_)) ->
         phase ev <> 3%nat)
  /\ (result (resolve_query B request group) = Ret (environments, query) ->
      get_date_range_from_params B (GET request) true = Ret (start, end_) ->
      get B now request group
      = (trace (resolve_query B request group)
         ++ [EvGetDateRange;
             EvDirectLookup query (initial_params now group start end_)
                            (group_referrer group ++ ".direct-hit")],
         Ret resp)).
Proof.
  intros Hhit.
  assert (Hrun : _get_events_snuba B now request group environments query start end_
                 = ([EvDirectLookup query (initial_params now group start end_)
                                    (group_referrer group ++ ".direct-hit")],
                    Ret resp)).
  { rewrite snuba_run. cbv zeta. rewrite Hhit.
    rewrite direct_hit_run in Hhit |- *.
    destruct (direct_hit_qualifies B query); [| discriminate].
    destruct (direct_lookup B query _ _ group) as [[ev |] | e]; try discriminate.
    reflexivity. }
  split; [exact Hrun |]. split; [now rewrite Hrun |]. split.
  - rewrite Hrun. intros ev [<- | []]. discriminate.
  - intros Hres Hdate. rewrite get_run. cbv zeta. rewrite Hres, Hdate, Hrun.
    reflexivity.
Qed.

(** C3, witness: the sample request whose query is a stored event id. *)
Lemma direct_hit_bypasses_pagination_witness :
  let request := Sample.request_of [("query", Sample.known_id)] in
  let lookup := EvDirectLookup (Some Sample.known_id)
                               (initial_params Sample.now Sample.group None None)
                               (group_referrer Sample.group ++ ".direct-hit") in
  let resp := {| status := 200; data := EventList [Sample.known_id] |} in
  _get_events_snuba Sample.backend Sample.now request Sample.group
                    [] (Some Sample.known_id) None None
  = ([lookup], Ret resp)
  /\ get Sample.backend Sample.now request Sample.group
     = (trace (resolve_query Sample.backend request Sample.group)
        ++ [EvGetDateRange; lookup],
        Ret resp).
Proof.
  cbv zeta.
  destruct (direct_hit_bypasses_pagination
              Sample.backend Sample.now
              (Sample.request_of [("query", Sample.known_id)]) Sample.group
              [] (Some Sample.known_id) None None
              {| status := 200; data := EventList [Sample.known_id] |})
    as (Hrun & _ & _ & Hget).
  - vm_compute. reflexivity.
  - split; [exact Hrun |]. apply Hget; vm_compute; reflexivity.
Defined.

Lemma in_tuple_1_true (x : option string) :
  in_tuple x ["1"; "true"] = true <-> (x = Some "1" \/ x = Some "true").
Proof.
  destruct x as [v |]; cbn.
  - rewrite !orb_true_iff, !String.eqb_eq. split.
    + intros [-> | [-> | H]]; [now left | now right | discriminate].
    + intros [H | H]; injection H as ->; auto.
  - split; [discriminate | intros [H | H]; discriminate].
Qed.

(** C4.  A fetched page makes one batched hydration call when the request
    has [full] set to ["1"] or ["true"], on the list of all handles mapped
    from the rows of the page and after the query was run; otherwise it makes
    none. *)
Theorem full_page_is_hydrated_in_one_call {Q} (B : Collaborators Q)
        (request : Request) (params : Params) (group : Group) (referrer : string)
        (orderby : option string) (offset limit : Z) (page : list Event) :
  let fetched := data_fn B request params group referrer orderby
                         (request_full request) offset limit in
  let build := EvBuildQuery (QueryDict_get_default (GET request) "query" "")
                            params group limit offset orderby in
  result fetched = Ret page ->
  (request_full request = true <->
   (QueryDict_get (GET request) "full" = Some "1"
    \/ QueryDict_get (GET request) "full" = Some "true"))
  /\ exists sq rows,
      run_query B sq referrer = Ret rows
      /\ if request_full request then
           trace fetched = [build; EvRunQuery sq referrer;
                            EvBindNodes (map event_of_row rows)]
           /\ page = map (attach_node B) (map event_of_row rows)
           /\ count is_bind_nodes (trace fetched) = 1%nat
         else
           trace fetched = [build; EvRunQuery sq referrer]
           /\ page = map event_of_row rows
           /\ count is_bind_nodes (trace fetched) = 0%nat.
Proof.
  cbv zeta. intros Hpage. split; [apply in_tuple_1_true |].
  rewrite data_fn_run in Hpage |- *. cbv zeta in Hpage |- *.
  destruct (get_query_builder_for_group B _ params group limit offset orderby)
    as [sq | e]; [| destruct e; discriminate].
  destruct (run_query B sq referrer) as [rows | e] eqn:Hrows; [| discriminate].
  exists sq, rows. split; [exact Hrows |].
  destruct (request_full request); injection Hpage as <-; repeat split.
Qed.

(** C4, witness: the first page of a sample request with [full=1]. *)
Lemma full_page_is_hydrated_in_one_call_witness :
  let request := Sample.request_of [("full", "1")] in
  let fetched := data_fn Sample.backend request
                         (initial_params Sample.now Sample.group None None)
                         Sample.group "api.group-events.error" None
                         (request_full request) 0 2 in
  result fetched
  = Ret (map (attach_node Sample.backend)
             (map event_of_row (firstn 2 Sample.stored)))
  /\ count is_bind_nodes (trace fetched) = 1%nat.
Proof.
  cbv zeta. split; [vm_compute; reflexivity |].
  destruct (full_page_is_hydrated_in_one_call
              Sample.backend (Sample.request_of [("full", "1")])
              (initial_params Sample.now Sample.group None None)
              Sample.group "api.group-events.error" None 0 2
              (map (attach_node Sample.backend)
                   (map event_of_row (firstn 2 Sample.stored))))
    as (_ & sq & rows & _ & Hcase).
  - vm_compute. reflexivity.
  - change (request_full (Sample.request_of [("full", "1")])) with true in Hcase.
    exact (proj2 (proj2 Hcase)).
Defined.

Section Failures.

Context {Q : Type}.
Variable B : Collaborators Q.

Lemma snuba_invalid_search now request group environments query start end_
      q p g l o ob msg :
  In (EvBuildQuery q p g l o ob)
     (trace (_get_events_snuba B now request group environments query start end_)) ->
  get_query_builder_for_group B q p g l o ob = Raise (InvalidSearchQuery msg) ->
  result (_get_events_snuba B now request group environments query start end_)
  = Raise (ParseError msg).
Proof.
  intros Hin Hbuild. rewrite snuba_run in Hin |- *. cbv zeta in Hin |- *.
  set (hit := get_direct_hit_response B request query _ _ group) in *.
  assert (Hhit : ~ In (@EvBuildQuery Q q p g l o ob) (trace hit)).
  { intros H. apply direct_hit_phase in H. discriminate. }
  destruct (result hit) as [[resp |] | e]; cbn [trace fst] in Hin;
    try contradiction.
  set (pages := run_paginator _ _) in *.
  assert (Hpages : In (@EvBuildQuery Q q p g l o ob) (trace pages) ->
                   result pages = Raise (ParseError msg)).
  { intros H. eapply run_paginator_invalid_search; eauto. }
  destruct (result pages) as [rows | e] eqn:Hres; cbn [trace fst result snd] in *;
    apply in_app_or in Hin; destruct Hin as [Hin | Hin]; try contradiction.
  - apply in_app_or in Hin. destruct Hin as [Hin | [Heq | []]]; [| discriminate].
    specialize (Hpages Hin). discriminate.
  - specialize (Hpages Hin). injection Hpages as ->. reflexivity.
Qed.

Lemma get_invalid_search now request group q p g l o ob msg :
  In (EvBuildQuery q p g l o ob) (trace (get B now request group)) ->
  get_query_builder_for_group B q p g l o ob = Raise (InvalidSearchQuery msg) ->
  result (get B now request group) = Raise (ParseError msg).
Proof.
  intros Hin Hbuild. pose proof Hin as Hcase. apply get_calls in Hcase.
  destruct Hcase as [Hcase | [Hcase | (environments & query & start & end_ & Hr & Hd & Hs)]].
  - apply resolve_query_phase in Hcase. discriminate.
  - discriminate.
  - rewrite get_run. cbv zeta. rewrite Hr, Hd. cbn [result snd].
    now rewrite (snuba_invalid_search _ _ _ _ _ _ _ _ _ _ _ _ _ _ Hs Hbuild).
Qed.

End Failures.

(** C6, as amended.  When building the structured query of a page raises
    [InvalidSearchQuery], the page fetch raises [ParseError] with the same
    message, without running a query; the exception leaves [get] as that same
    [ParseError] (it is not a [GroupEventsError], and the handler for
    [GroupEventsError] does not touch it), and becomes a 400 response whose
    body is the message as [{detail}]. *)
Theorem invalid_search_query_is_parse_error {Q} (B : Collaborators Q)
        (now : datetime) (request : Request) (group : Group) :
  (forall params referrer orderby full offset limit msg,
      get_query_builder_for_group B (QueryDict_get_default (GET request) "query" "")
                                  params group limit offset orderby
      = Raise (InvalidSearchQuery msg) ->
      data_fn B request params group referrer orderby full offset limit
      = ([EvBuildQuery (QueryDict_get_default (GET request) "query" "")
                       params group limit offset orderby],
         Raise (ParseError msg)))
  /\ (forall q p g l o ob msg,
         In (EvBuildQuery q p g l o ob) (trace (get B now request group)) ->
         get_query_builder_for_group B q p g l o ob = Raise (InvalidSearchQuery msg) ->
         result (get B now request group) = Raise (ParseError msg)
         /\ respond (get B now request group)
            = Some {| status := 400; data := Detail msg |}).
Proof.
  split.
  - intros params referrer orderby full offset limit msg Hbuild.
    rewrite data_fn_run. cbv zeta. now rewrite Hbuild.
  - intros q p g l o ob msg Hin Hbuild.
    pose proof (get_invalid_search B _ _ _ _ _ _ _ _ _ _ Hin Hbuild) as Hres.
    split; [exact Hres |]. unfold respond. now rewrite Hres.
Qed.

(** C6, witness: the sample request whose query names a field the sample
    builder rejects. *)
Lemma invalid_search_query_is_parse_error_witness :
  let request := Sample.request_of [("query", "nosuchfield:1")] in
  data_fn Sample.backend request (initial_params Sample.now Sample.group None None)
          Sample.group "api.group-events.error" None false 0 2
  = ([EvBuildQuery "nosuchfield:1" (initial_params Sample.now Sample.group None None)
                   Sample.group 2 0 None],
     Raise (ParseError "nosuchfield is not a valid field"))
  /\ respond (get Sample.backend Sample.now request Sample.group)
     = Some {| status := 400; data := Detail "nosuchfield is not a valid field" |}.
Proof.
  cbv zeta.
  pose proof (invalid_search_query_is_parse_error
                Sample.backend Sample.now
                (Sample.request_of [("query", "nosuchfield:1")]) Sample.group)
    as [Hpage Hget].
  split.
  - apply (Hpage (initial_params Sample.now Sample.group None None)
                 "api.group-events.error" None false 0 2
                 "nosuchfield is not a valid field").
    vm_compute. reflexivity.
  - apply (Hget "nosuchfield:1" (initial_params Sample.now Sample.group None None)
                Sample.group 2 0 None "nosuchfield is not a valid field").
    + vm_compute. auto 10.
    + vm_compute. reflexivity.
Defined.

(** C6, counterexample to the claim as stated: the sample builder raises
    [InvalidSearchQuery], and the page fetch fails with [ParseError], not with
    [GroupEventsError]. *)
Lemma invalid_search_query_is_not_group_events_error :
  let request := Sample.request_of [("query", "nosuchfield:1")] in
  let params := initial_params Sample.now Sample.group None None in
  let fetched := data_fn Sample.backend request params Sample.group
                         "api.group-events.error" None false 0 2 in
  get_query_builder_for_group Sample.backend "nosuchfield:1" params Sample.group 2 0 None
  = Raise (InvalidSearchQuery "nosuchfield is not a valid field")
  /\ result fetched = Raise (ParseError "nosuchfield is not a valid field")
  /\ (forall msg, result fetched <> Raise (GroupEventsError msg))
  /\ (forall msg, result (get Sample.backend Sample.now request Sample.group)
                  <> Raise (GroupEventsError msg)).
Proof.
  cbv zeta. repeat split; try (vm_compute; reflexivity);
    intros msg; vm_compute; discriminate.
Qed.

(** C7.  When query resolution fails with [InvalidQuery], [get] answers 400
    with the exception's message as detail; when it fails with [NoResults] or
    [ResourceDoesNotExist], [get] answers 200 with an empty list.  In both
    cases nothing further is called. *)
Theorem query_resolution_failures {Q} (B : Collaborators Q)
        (now : datetime) (request : Request) (group : Group) :
  (forall msg,
      result (resolve_query B request group) = Raise (InvalidQuery msg) ->
      get B now request group
      = (trace (resolve_query B request group),
         Ret {| status := 400; data := Detail msg |}))
  /\ (result (resolve_query B request group) = Raise NoResults
      \/ result (resolve_query B request group) = Raise ResourceDoesNotExist ->
      get B now request group
      = (trace (resolve_query B request group),
         Ret {| status := 200; data := EventList [] |}))
  /\ (forall environments c rest msg,
         get_environments B request (organization (project group)) = Ret environments ->
         QueryDict_get (GET request) "query" = Some (String c rest) ->
         parse_query B [project group] (String c rest) (user request) environments
         = Raise (InvalidQuery msg) ->
         get B now request group
         = ([EvGetEnvironments; EvParseQuery (String c rest)],
            Ret {| status := 400; data := Detail msg |}))
  /\ (get_environments B request (organization (project group))
      = Raise ResourceDoesNotExist ->
      get B now request group
      = ([EvGetEnvironments], Ret {| status := 200; data := EventList [] |})).
Proof.
  repeat split.
  - intros msg Hres. rewrite get_run. cbv zeta. now rewrite Hres.
  - intros [Hres | Hres]; rewrite get_run; cbv zeta; now rewrite Hres.
  - intros environments c rest msg Henv Hq Hparse.
    rewrite get_run. cbv zeta. rewrite resolve_query_run, Henv, Hq, Hparse.
    reflexivity.
  - intros Henv. rewrite get_run. cbv zeta. rewrite resolve_query_run, Henv.
    reflexivity.
Qed.

(** C7, witness: a sample request with an unparseable query, and one that
    names an environment that does not exist. *)
Lemma query_resolution_failures_witness :
  get Sample.backend Sample.now (Sample.request_of [("query", "((")]) Sample.group
  = ([EvGetEnvironments; EvParseQuery "(("],
     Ret {| status := 400;
            data := Detail "Invalid query: unbalanced parenthesis" |})
  /\ get Sample.backend Sample.now (Sample.request_of [("environment", "missing")])
         Sample.group
     = ([EvGetEnvironments], Ret {| status := 200; data := EventList [] |}).
Proof.
  split.
  - pose proof (query_resolution_failures
                  Sample.backend Sample.now (Sample.request_of [("query", "((")])
                  Sample.group) as (Hinvalid & _ & Hparse & _).
    rewrite (Hinvalid "Invalid query: unbalanced parenthesis");
      [| vm_compute; reflexivity].
    rewrite <- (Hparse [] "("%char "(" "Invalid query: unbalanced parenthesis");
      vm_compute; reflexivity.
  - pose proof (query_resolution_failures
                  Sample.backend Sample.now
                  (Sample.request_of [("environment", "missing")])
                  Sample.group) as (_ & Hempty & _ & Hmissing).
    rewrite (Hempty (or_intror eq_refl)).
    rewrite <- Hmissing; vm_compute; reflexivity.
Defined.

(** C5.  When the request supplies neither [start] nor [end], so that the
    date-range parser returns no explicit window, every query-parameter dict
    the request sends to the storage side (for the direct-hit lookup and for
    each page query) has the window from [now] minus 90 days to [now], where
    [now] is the clock reading taken in [_get_events_snuba]. *)
Theorem default_window_is_trailing_90_days {Q} (B : Collaborators Q)
        (now : datetime) (request : Request) (group : Group)
        (ev : call Q) (params : Params) :
  get_date_range_from_params B (GET request) true = Ret (None, None) ->
  In ev (trace (get B now request group)) ->
  event_params ev = Some params ->
  p_start params = now - timedelta_days 90
  /\ p_end params = now
  /\ p_end params - p_start params = 7776000000000.
Proof.
  intros Hdate Hin Hp.
  destruct (get_params B now request group ev params Hin Hp)
    as (environments & query & start & end_ & _ & Hd & Hcase).
  rewrite Hdate in Hd. injection Hd as <- <-.
  assert (Hwin : p_start params = now - timedelta_days 90 /\ p_end params = now).
  { destruct Hcase as [[-> _] | [-> _]]; [split; reflexivity |].
    destruct (page_params_window (initial_params now group None None) environments)
      as (-> & -> & _). split; reflexivity. }
  destruct Hwin as [Hs He]. rewrite Hs, He. unfold timedelta_days.
  repeat split; lia.
Qed.

(** C5, witness: a page query of the sample request without parameters. *)
Lemma default_window_is_trailing_90_days_witness :
  p_start (initial_params Sample.now Sample.group None None)
  = Sample.now - timedelta_days 90
  /\ p_end (initial_params Sample.now Sample.group None None) = Sample.now
  /\ p_end (initial_params Sample.now Sample.group None None)
     - p_start (initial_params Sample.now Sample.group None None) = 7776000000000.
Proof.
  apply (default_window_is_trailing_90_days
           Sample.backend Sample.now (Sample.request_of []) Sample.group
           (EvBuildQuery "" (initial_params Sample.now Sample.group None None)
                         Sample.group 2 0 None)).
  - vm_compute. reflexivity.
  - vm_compute. auto 10.
  - reflexivity.
Defined.

(** C8.  The page fetch is a function of its filter and page parameters and
    of the storage side's answers: two invocations, in requests that carry the
    same ["query"] parameter and the same [full] and [sample] flags, for the
    same group, environments and window, behind collaborators whose query
    builder, storage engine and node store answer alike, make the same calls
    and return the same page for the same [(offset, limit)]; in particular
    the same event identifiers in the same order, which are the identifiers
    of the rows the storage engine returned, in its order.  This holds for
    either value of the [sample] flag. *)
Theorem page_fetch_is_deterministic {Q} (B1 B2 : Collaborators Q)
        (now1 now2 : datetime) (request1 request2 : Request) (group : Group)
        (environments : list Environment)
        (start1 end1 start2 end2 : option datetime) (offset limit : Z) :
  let fetch1 := data_fn B1 request1
                        (page_params (initial_params now1 group start1 end1) environments)
                        group (group_referrer group) (request_orderby request1)
                        (request_full request1) in
  let fetch2 := data_fn B2 request2
                        (page_params (initial_params now2 group start2 end2) environments)
                        group (group_referrer group) (request_orderby request2)
                        (request_full request2) in
  (forall q p g l o ob, get_query_builder_for_group B1 q p g l o ob
                        = get_query_builder_for_group B2 q p g l o ob) ->
  (forall sq referrer, run_query B1 sq referrer = run_query B2 sq referrer) ->
  (forall pid id, node_payload B1 pid id = node_payload B2 pid id) ->
  QueryDict_get (GET request1) "query" = QueryDict_get (GET request2) "query" ->
  request_full request1 = request_full request2 ->
  request_sample request1 = request_sample request2 ->
  initial_params now1 group start1 end1 = initial_params now2 group start2 end2 ->
  fetch1 offset limit = fetch2 offset limit
  /\ (forall page1 page2,
         result (fetch1 offset limit) = Ret page1 ->
         result (fetch2 offset limit) = Ret page2 ->
         map event_id page1 = map event_id page2)
  /\ (forall page,
         result (fetch1 offset limit) = Ret page ->
         exists sq rows,
           run_query B1 sq (group_referrer group) = Ret rows
           /\ map event_id page = map row_id rows).
Proof.
  cbv zeta. intros Hbuild Hrun Hnode Hquery Hfull Hsample Hparams.
  assert (Hsame : data_fn B1 request1
                          (page_params (initial_params now1 group start1 end1) environments)
                          group (group_referrer group) (request_orderby request1)
                          (request_full request1) offset limit
                  = data_fn B2 request2
                            (page_params (initial_params now2 group start2 end2)
                                         environments)
                            group (group_referrer group) (request_orderby request2)
                            (request_full request2) offset limit).
  { rewrite !data_fn_run. cbv zeta. unfold request_orderby, QueryDict_get_default.
    rewrite Hquery, Hfull, Hsample, Hparams, Hbuild.
    destruct (get_query_builder_for_group B2 _ _ group limit offset _) as [sq | e];
      [| reflexivity].
    rewrite Hrun. destruct (run_query B2 sq _) as [rows | e]; [| reflexivity].
    destruct (request_full request2); [| reflexivity].
    do 2 f_equal. apply map_ext. intros ev. unfold attach_node. now rewrite Hnode. }
  split; [exact Hsame |]. split.
  - intros page1 page2 H1 H2. rewrite Hsame in H1. congruence.
  - intros page. rewrite data_fn_run. cbv zeta.
    destruct (get_query_builder_for_group B1 _ _ group limit offset _) as [sq | e];
      [| destruct e; discriminate].
    destruct (run_query B1 sq _) as [rows | e] eqn:Hrows; [| discriminate].
    intros Hpage. exists sq, rows. split; [exact Hrows |].
    destruct (request_full request1); injection Hpage as <-;
      rewrite ?map_map; reflexivity.
Qed.

(** C8, witness: two sample requests in sample order, sent at different
    times by different users behind different paginators, with the same
    explicit window. *)
Lemma page_fetch_is_deterministic_witness :
  let window := (Some 1672531200000000, Some 1698796800000000) in
  let request1 := Sample.request_of [("query", "foo"); ("sample", "1")] in
  let request2 := {| GET := [("cursor", "0:2:0"); ("sample", "true"); ("query", "foo")];
                     user := "bob" |} in
  data_fn Sample.backend request1
          (page_params (initial_params Sample.now Sample.group (fst window) (snd window)) [])
          Sample.group (group_referrer Sample.group) (request_orderby request1)
          (request_full request1) 1 2
  = data_fn Sample.backend_single_page request2
            (page_params (initial_params (Sample.now + 5000000) Sample.group
                                         (fst window) (snd window)) [])
            Sample.group (group_referrer Sample.group) (request_orderby request2)
            (request_full request2) 1 2.
Proof.
  cbv zeta.
  apply (page_fetch_is_deterministic
           Sample.backend Sample.backend_single_page
           Sample.now (Sample.now + 5000000)
           (Sample.request_of [("query", "foo"); ("sample", "1")])
           {| GET := [("cursor", "0:2:0"); ("sample", "true"); ("query", "foo")];
              user := "bob" |}
           Sample.group []
           (Some 1672531200000000) (Some 1698796800000000)
           (Some 1672531200000000) (Some 1698796800000000) 1 2);
    try reflexivity; intros; reflexivity.
Defined.

(** C9.  For a request that resolves a non-empty list of environments, the
    direct-hit lookup is given query parameters without the environment
    restriction, and every page query that follows is given the names of the
    resolved environments. *)
Theorem environment_restriction_added_after_direct_hit {Q} (B : Collaborators Q)
        (now : datetime) (request : Request) (group : Group)
        (environments : list Environment) (ev : call Q) :
  get_environments B request (organization (project group)) = Ret environments ->
  environments <> [] ->
  In ev (trace (get B now request group)) ->
  match ev with
  | EvDirectLookup _ params _ => p_environment params = None
  | EvBuildQuery _ params _ _ _ _ =>
      p_environment params = Some (map env_name environments)
  | _ => True
  end.
Proof.
  intros Henv Hne Hin.
  assert (Hp : forall params,
             event_params ev = Some params ->
             (is_direct_lookup ev = true -> p_environment params = None)
             /\ (is_direct_lookup ev = false ->
                 p_environment params = Some (map env_name environments))).
  { intros params Hp.
    destruct (get_params B now request group ev params Hin Hp)
      as (envs & query & start & end_ & Hr & _ & Hcase).
    apply resolve_query_environments in Hr. rewrite Henv in Hr.
    injection Hr as <-.
    destruct Hcase as [[-> Hdl] | [-> Hdl]]; rewrite Hdl; split; try discriminate.
    - reflexivity.
    - intros _. destruct environments; [contradiction | reflexivity]. }
  destruct ev; try exact I.
  - now apply (Hp params eq_refl).
  - now apply (Hp params eq_refl).
Qed.

(** C9, witness: a sample request in environment [prod] whose query looks
    like an event id that is not stored, so that the lookup is made and the
    pages are fetched after it. *)
Lemma environment_restriction_added_after_direct_hit_witness :
  p_environment (initial_params Sample.now Sample.group None None) = None
  /\ p_environment (page_params (initial_params Sample.now Sample.group None None)
                                [{| env_name := "prod" |}])
     = Some ["prod"].
Proof.
  pose (request := Sample.request_of [("query", Sample.unknown_id);
                                      ("environment", "prod")]).
  split.
  - apply (environment_restriction_added_after_direct_hit
             Sample.backend Sample.now request Sample.group
             [{| env_name := "prod" |}]
             (EvDirectLookup (Some Sample.unknown_id)
                             (initial_params Sample.now Sample.group None None)
                             "api.group-events.error.direct-hit")).
    + vm_compute. reflexivity.
    + discriminate.
    + vm_compute. auto 10.
  - apply (environment_restriction_added_after_direct_hit
             Sample.backend Sample.now request Sample.group
             [{| env_name := "prod" |}]
             (EvBuildQuery Sample.unknown_id
                           (page_params (initial_params Sample.now Sample.group None None)
                                        [{| env_name := "prod" |}])
                           Sample.group 2 0 None)).
    + vm_compute. reflexivity.
    + discriminate.
    + vm_compute. auto 10.
Defined.

Section StorageStepCalls.

Context {Q : Type}.
Variable B : Collaborators Q.

(** The calls of the direct-hit check are calls of [_get_events_snuba]. *)
Lemma snuba_includes_direct_hit now request group environments query start end_ ev :
  In ev (trace (get_direct_hit_response B request query
                                        (initial_params now group start end_)
                                        (group_referrer group ++ ".direct-hit") group)) ->
  In ev (trace (_get_events_snuba B now request group environments query start end_)).
Proof.
  intros Hin. rewrite snuba_run. cbv zeta.
  destruct (result (get_direct_hit_response B request query _ _ group))
    as [[resp |] | e]; cbn [trace fst]; try exact Hin.
  destruct (result (run_paginator _ _)) as [rows | e]; cbn [trace fst];
    apply in_or_app; now left.
Qed.

(** When the direct-hit check gives no response, the first page the
    paginator asks for is fetched. *)
Lemma snuba_includes_first_page now request group environments query start end_
      offset limit k ev :
  result (get_direct_hit_response B request query
                                  (initial_params now group start end_)
                                  (group_referrer group ++ ".direct-hit") group)
  = Ret None ->
  paginator B request = Fetch offset limit k ->
  In ev (trace (data_fn B request
                        (page_params (initial_params now group start end_) environments)
                        group (group_referrer group) (request_orderby request)
                        (request_full request) offset limit)) ->
  In ev (trace (_get_events_snuba B now request group environments query start end_)).
Proof.
  intros Hhit Hplan Hin. rewrite snuba_run. cbv zeta. rewrite Hhit, Hplan.
  assert (Hpages : In ev (trace (run_paginator
                                   (Fetch offset limit k)
                                   (data_fn B request
                                            (page_params (initial_params now group
                                                                         start end_)
                                                         environments)
                                            group (group_referrer group)
                                            (request_orderby request)
                                            (request_full request))))).
  { cbn [run_paginator]. rewrite trace_bind. apply in_or_app. now left. }
  destruct (result (run_paginator (Fetch offset limit k) _)) as [rows | e];
    cbn [trace fst]; apply in_or_app; right; [apply in_or_app; now left | exact Hpages].
Qed.

Lemma data_fn_builds_first request params group referrer orderby full offset limit :
  In (EvBuildQuery (QueryDict_get_default (GET request) "query" "")
                   params group limit offset orderby)
     (trace (data_fn B request params group referrer orderby full offset limit)).
Proof.
  rewrite data_fn_run. cbv zeta.
  destruct (get_query_builder_for_group B _ params group limit offset orderby)
    as [sq | e].
  - destruct (run_query B sq referrer) as [rows | e]; [destruct full |]; now left.
  - destruct e; now left.
Qed.

(** The calls of [_get_events_snuba] are calls of the request, once the query
    and the window are resolved. *)
Lemma get_includes_snuba now request group environments query start end_ ev :
  result (resolve_query B request group) = Ret (environments, query) ->
  get_date_range_from_params B (GET request) true = Ret (start, end_) ->
  In ev (trace (_get_events_snuba B now request group environments query start end_)) ->
  In ev (trace (get B now request group)).
Proof.
  intros Hres Hdate Hin. rewrite get_run. cbv zeta. rewrite Hres, Hdate.
  cbn [trace fst]. apply in_or_app. right. now right.
Qed.

End StorageStepCalls.

(** C10.  When the window of a request reaches [_get_events_snuba] with a
    bound missing, the missing bound is defaulted on its own, whatever the
    other bound is: a missing start becomes [now] minus 90 days, a missing end
    becomes [now].  Every query-parameter dict the request sends to the
    storage side carries that window, and they are sent: the direct-hit
    lookup is made with it whenever the query qualifies, and the first page
    the paginator asks for is built with it whenever the direct-hit check
    gives no response.  So an [end] given alone and earlier than [now] minus
    90 days makes these calls with a start later than the end. *)
Theorem missing_bound_defaulted_independently {Q} (B : Collaborators Q)
        (now : datetime) (request : Request) (group : Group)
        (environments : list Environment) (query : option string)
        (start end_ : option datetime) :
  result (resolve_query B request group) = Ret (environments, query) ->
  get_date_range_from_params B (GET request) true = Ret (start, end_) ->
  let window_start := match start with Some s => s | None => now - timedelta_days 90 end in
  let window_end := match end_ with Some e => e | None => now end in
  let lookup_params :=
    {| p_project_id := [project_id group];
       p_organization_id := organization_id (project group);
       p_start := window_start;
       p_end := window_end;
       p_environment := None |} in
  let query_params :=
    {| p_project_id := [project_id group];
       p_organization_id := organization_id (project group);
       p_start := window_start;
       p_end := window_end;
       p_environment := match environments with
                        | [] => None
                        | _ :: _ => Some (map env_name environments)
                        end |} in
  (forall ev params,
      In ev (trace (get B now request group)) ->
      event_params ev = Some params ->
      p_start params = window_start /\ p_end params = window_end)
  /\ (direct_hit_qualifies B query = true ->
      In (EvDirectLookup query lookup_params (group_referrer group ++ ".direct-hit"))
         (trace (get B now request group)))
  /\ (forall offset limit k,
         result (get_direct_hit_response B request query lookup_params
                                         (group_referrer group ++ ".direct-hit") group)
         = Ret None ->
         paginator B request = Fetch offset limit k ->
         In (EvBuildQuery (QueryDict_get_default (GET request) "query" "")
                          query_params group limit offset (request_orderby request))
            (trace (get B now request group)))
  /\ (forall e,
         start = None -> end_ = Some e -> e < now - timedelta_days 90 ->
         window_start = now - timedelta_days 90
         /\ window_end = e
         /\ window_start > window_end)
  /\ (forall s,
         start = Some s -> end_ = None ->
         window_start = s /\ window_end = now).
Proof.
  intros Hres Hdate. cbv zeta.
  change {| p_project_id := [project_id group];
            p_organization_id := organization_id (project group);
            p_start := match start with Some s => s | None => now - timedelta_days 90 end;
            p_end := match end_ with Some e => e | None => now end;
            p_environment := None |}
    with (initial_params now group start end_).
  rewrite <- (page_params_explicit now group start end_ environments).
  split; [| split; [| split; [| split]]].
  - intros ev params Hin Hp.
    destruct (get_params B now request group ev params Hin Hp)
      as (envs & q & s0 & e0 & _ & Hd & Hcase).
    rewrite Hdate in Hd. injection Hd as <- <-.
    destruct Hcase as [[-> _] | [-> _]]; [split; reflexivity |].
    destruct (page_params_window (initial_params now group start end_) envs)
      as (-> & -> & _).
    split; reflexivity.
  - intros Hq. apply (get_includes_snuba B now request group environments query
                                         start end_); auto.
    apply snuba_includes_direct_hit. rewrite direct_hit_run, Hq.
    destruct (direct_lookup B query _ _ group) as [[found |] | e]; now left.
  - intros offset limit k Hhit Hplan.
    apply (get_includes_snuba B now request group environments query start end_);
      auto.
    apply (snuba_includes_first_page B now request group environments query
                                     start end_ offset limit k _ Hhit Hplan).
    apply data_fn_builds_first.
  - intros e -> -> Hlt. repeat split. lia.
  - intros s -> ->. split; reflexivity.
Qed.

(** C10, witness: the sample request that gives only an [end], of 1 January
    2023, more than 90 days before the sample [now]; its query looks like an
    event id, so the lookup is made, and finds nothing, so pages are fetched. *)
Lemma missing_bound_defaulted_independently_witness :
  let request := Sample.request_of [("query", Sample.unknown_id);
                                    ("end", "2023-01-01T00:00:00")] in
  let params := {| p_project_id := [3]; p_organization_id := 1;
                   p_start := Sample.now - timedelta_days 90;
                   p_end := 1672531200000000;
                   p_environment := None |} in
  let run := get Sample.backend Sample.now request Sample.group in
  QueryDict_get (GET request) "start" = None
  /\ QueryDict_get (GET request) "end" = Some "2023-01-01T00:00:00"
  /\ In (EvDirectLookup (Some Sample.unknown_id) params
                        "api.group-events.error.direct-hit") (trace run)
  /\ In (EvBuildQuery Sample.unknown_id params Sample.group 2 0 None) (trace run)
  /\ p_start params > p_end params.
Proof.
  cbv zeta.
  destruct (missing_bound_defaulted_independently
              Sample.backend Sample.now
              (Sample.request_of [("query", Sample.unknown_id);
                                  ("end", "2023-01-01T00:00:00")])
              Sample.group [] (Some Sample.unknown_id)
              None (Some 1672531200000000) eq_refl eq_refl)
    as (_ & Hlookup & Hpage & Hlate & _).
  split; [reflexivity |]. split; [reflexivity |]. split; [| split].
  - apply Hlookup. reflexivity.
  - apply (Hpage 0 2 (fun rows =>
                        if Z.of_nat (List.length rows) <? 2 then Done ([] ++ rows)
                        else Sample.offset_pages 2 (0 + 2) 2 ([] ++ rows)));
      reflexivity.
  - apply (Hlate 1672531200000000 eq_refl eq_refl). vm_compute. reflexivity.
Defined.

(** ** Further properties of the endpoint *)

Section Counting.

Context {Q : Type}.

Lemma count_app (p : call Q -> bool) (t1 t2 : list (call Q)) :
  count p (t1 ++ t2) = (count p t1 + count p t2)%nat.
Proof. unfold count. now rewrite filter_app, length_app. Qed.

Lemma count_none (p : call Q -> bool) (t : list (call Q)) :
  (forall ev, In ev t -> p ev = false) -> count p t = 0%nat.
Proof.
  induction t as [| a t IH]; intros Hall; [reflexivity |].
  unfold count in *. cbn. rewrite (Hall a (or_introl eq_refl)).
  apply IH. intros ev Hev. apply Hall. now right.
Qed.

Lemma count_cons (p : call Q -> bool) (a : call Q) (t : list (call Q)) :
  count p (a :: t) = ((if p a then 1 else 0) + count p t)%nat.
Proof. unfold count. cbn. now destruct (p a). Qed.

End Counting.

Section RequestShape.

Context {Q : Type}.
Variable B : Collaborators Q.

(** What follows query resolution in the trace of a request belongs to the
    later steps. *)
Lemma get_trace_split now request group :
  exists tail,
    trace (get B now request group) = trace (resolve_query B request group) ++ tail
    /\ (forall ev, In ev tail -> (1 <= phase ev)%nat).
Proof.
  rewrite get_run. cbv zeta.
  destruct (result (resolve_query B request group)) as [[environments query] | e].
  - destruct (get_date_range_from_params B (GET request) true) as [[start end_] | e].
    + eexists. split; [reflexivity |]. intros ev [<- | Hev]; [cbn; lia |].
      apply snuba_phase in Hev. lia.
    + exists [EvGetDateRange]. split; [now destruct e |].
      intros ev [<- | []]. cbn. lia.
  - exists []. split; [destruct e; cbn; now rewrite app_nil_r | intros ev []].
Qed.

(** Query resolution asks for the environments, and then at most once for
    the parse of a non-empty query. *)
Lemma resolve_query_trace request group :
  trace (resolve_query B request group) = [EvGetEnvironments]
  \/ exists c rest,
      QueryDict_get (GET request) "query" = Some (String c rest)
      /\ trace (resolve_query B request group)
         = [EvGetEnvironments; EvParseQuery (String c rest)].
Proof.
  rewrite resolve_query_run.
  destruct (get_environments B request _) as [environments | e]; [| now left].
  destruct (QueryDict_get (GET request) "query") as [[| c rest] |];
    try (now left).
  right. exists c, rest. split; [reflexivity |].
  destruct (parse_query B _ _ _ _); reflexivity.
Qed.

End RequestShape.

(** X1.  Every request first asks for the environments.  The issue-search
    parser is called at most once per request, only when the ["query"]
    parameter is present and non-empty, and it is given that raw string. *)
Theorem request_begins_with_environments {Q} (B : Collaborators Q)
        (now : datetime) (request : Request) (group : Group) :
  (exists rest, trace (get B now request group) = EvGetEnvironments :: rest)
  /\ (count is_parse_query (trace (get B now request group)) <= 1)%nat
  /\ (forall raw,
         In (EvParseQuery raw) (trace (get B now request group)) ->
         QueryDict_get (GET request) "query" = Some raw /\ raw <> "").
Proof.
  destruct (get_trace_split B now request group) as (tail & Htrace & Htail).
  assert (Hnone : forall ev, In ev tail -> is_parse_query ev = false).
  { intros ev Hev. apply Htail in Hev. destruct ev; cbn in *; try reflexivity; lia. }
  rewrite Htrace.
  destruct (resolve_query_trace B request group) as [Hres | (c & rest & Hq & Hres)];
    rewrite Hres; (split; [eexists; reflexivity |]);
    (split; [rewrite count_app, (count_none _ _ Hnone); cbn; lia |]);
    intros raw Hin.
  - destruct Hin as [Heq | Hin]; [discriminate |].
    apply Hnone in Hin. discriminate.
  - destruct Hin as [Heq | [Heq | Hin]]; try discriminate.
    + injection Heq as <-. split; [exact Hq | discriminate].
    + apply Hnone in Hin. discriminate.
Qed.

(** X1, witness: the sample request with query ["foo"]. *)
Lemma request_begins_with_environments_witness :
  QueryDict_get (GET (Sample.request_of [("query", "foo")])) "query" = Some "foo"
  /\ "foo" <> "".
Proof.
  apply (proj2 (proj2 (request_begins_with_environments
                         Sample.backend Sample.now
                         (Sample.request_of [("query", "foo")]) Sample.group))
               "foo").
  vm_compute. auto.
Defined.

(** X2.  A request whose ["query"] parameter is absent or empty never calls
    the issue-search parser; its direct-hit lookup, if one is made, is given
    no query, and every page query is built from the empty string. *)
Theorem empty_query_is_no_query {Q} (B : Collaborators Q)
        (now : datetime) (request : Request) (group : Group) (ev : call Q) :
  QueryDict_get (GET request) "query" = None
  \/ QueryDict_get (GET request) "query" = Some "" ->
  In ev (trace (get B now request group)) ->
  match ev with
  | EvParseQuery _ => False
  | EvDirectLookup query _ _ => query = None
  | EvBuildQuery query _ _ _ _ _ => query = ""
  | _ => True
  end.
Proof.
  intros Hq Hin.
  assert (Hraw : QueryDict_get_default (GET request) "query" "" = "").
  { unfold QueryDict_get_default. now destruct Hq as [-> | ->]. }
  apply get_calls in Hin.
  destruct Hin as [Hin | [-> | (environments & query & start & end_ & Hr & _ & Hin)]].
  - destruct (resolve_query_trace B request group) as [Ht | (c & rest & Hsome & _)].
    + rewrite Ht in Hin. destruct Hin as [<- | []]. exact I.
    + destruct Hq as [Hq | Hq]; rewrite Hq in Hsome; discriminate.
  - exact I.
  - assert (Hnone : query = None).
    { rewrite resolve_query_run in Hr.
      destruct (get_environments B request _) as [envs | e]; [| discriminate].
      destruct Hq as [Hq | Hq]; rewrite Hq in Hr; cbn in Hr; congruence. }
    subst query. apply snuba_calls in Hin.
    destruct Hin as [-> | [(offset & limit & Hin) | (rows & sz & ->)]];
      try reflexivity; try exact I.
    apply data_fn_calls in Hin. rewrite Hraw in Hin.
    destruct Hin as [-> | [(sq & _ & ->) | (events & _ & ->)]];
      try reflexivity; exact I.
Qed.

(** X2, witness: the first page query of the sample request with an empty
    ["query"] parameter. *)
Lemma empty_query_is_no_query_witness : "" = "".
Proof.
  apply (empty_query_is_no_query
           Sample.backend Sample.now (Sample.request_of [("query", "")]) Sample.group
           (EvBuildQuery "" (initial_params Sample.now Sample.group None None)
                         Sample.group 2 0 None)).
  - right. reflexivity.
  - vm_compute. auto 10.
Defined.

(** X3.  The page fetch catches only an [InvalidSearchQuery] of the query
    builder.  Any other exception of the builder leaves the page fetch as it
    is, with no query run.  Any exception of [run_query], [InvalidSearchQuery]
    included, leaves it as it is, with no hydration call.  So a page fetch
    that raises [InvalidSearchQuery] had its query built and run. *)
Theorem page_fetch_passes_errors_on {Q} (B : Collaborators Q)
        (request : Request) (params : Params) (group : Group) (referrer : string)
        (orderby : option string) (full : bool) (offset limit : Z) :
  let fetched := data_fn B request params group referrer orderby full offset limit in
  let raw := QueryDict_get_default (GET request) "query" "" in
  let build := EvBuildQuery raw params group limit offset orderby in
  (forall e,
      get_query_builder_for_group B raw params group limit offset orderby = Raise e ->
      (forall msg, e <> InvalidSearchQuery msg) ->
      fetched = ([build], Raise e))
  /\ (forall sq e,
         get_query_builder_for_group B raw params group limit offset orderby = Ret sq ->
         run_query B sq referrer = Raise e ->
         fetched = ([build; EvRunQuery sq referrer], Raise e))
  /\ (forall msg,
         result fetched = Raise (InvalidSearchQuery msg) ->
         exists sq,
           get_query_builder_for_group B raw params group limit offset orderby = Ret sq
           /\ In (EvRunQuery sq referrer) (trace fetched)).
Proof.
  cbv zeta. rewrite data_fn_run. cbv zeta. split; [| split].
  - intros e Hbuild Hnot. rewrite Hbuild. destruct e; try reflexivity.
    now destruct (Hnot msg).
  - intros sq e Hbuild Hrun. now rewrite Hbuild, Hrun.
  - intros msg.
    destruct (get_query_builder_for_group B _ params group limit offset orderby)
      as [sq | e].
    + intros Hres. exists sq. split; [reflexivity |].
      destruct (run_query B sq referrer) as [rows | e]; [destruct full |];
        cbn; auto.
    + destruct e; discriminate.
Qed.

(** X3, witness: the faulty builder times out on one query, and the faulty
    storage engine raises [InvalidSearchQuery] on another. *)
Lemma page_fetch_passes_errors_on_witness :
  let params := initial_params Sample.now Sample.group None None in
  data_fn Faulty.backend (Sample.request_of [("query", "slow")]) params
          Sample.group "api.group-events.error" None true 0 2
  = ([EvBuildQuery "slow" params Sample.group 2 0 None],
     Raise (OtherError "query builder timed out"))
  /\ data_fn Faulty.backend (Sample.request_of [("query", "column")]) params
             Sample.group "api.group-events.error" None true 0 2
     = ([EvBuildQuery "column" params Sample.group 2 0 None;
         EvRunQuery {| Sample.q_query := "column"; Sample.q_params := params;
                       Sample.q_limit := 2; Sample.q_offset := 0;
                       Sample.q_orderby := None |} "api.group-events.error"],
        Raise (InvalidSearchQuery "unknown column")).
Proof.
  cbv zeta. split.
  - apply (proj1 (page_fetch_passes_errors_on
                    Faulty.backend (Sample.request_of [("query", "slow")])
                    (initial_params Sample.now Sample.group None None)
                    Sample.group "api.group-events.error" None true 0 2)).
    + reflexivity.
    + discriminate.
  - apply (proj1 (proj2 (page_fetch_passes_errors_on
                           Faulty.backend (Sample.request_of [("query", "column")])
                           (initial_params Sample.now Sample.group None None)
                           Sample.group "api.group-events.error" None true 0 2)));
      reflexivity.
Defined.

(** X4.  A page that is returned has one event per row of the storage
    engine's answer, in the same order, with the row's id and project id;
    the [snuba_data] of each event repeats its id and project id; and every
    event carries a payload when [full] was asked for and none otherwise. *)
Theorem page_events_mirror_rows {Q} (B : Collaborators Q)
        (request : Request) (params : Params) (group : Group) (referrer : string)
        (orderby : option string) (full : bool) (offset limit : Z)
        (page : list Event) :
  result (data_fn B request params group referrer orderby full offset limit)
  = Ret page ->
  exists sq rows,
    get_query_builder_for_group B (QueryDict_get_default (GET request) "query" "")
                                params group limit offset orderby = Ret sq
    /\ run_query B sq referrer = Ret rows
    /\ List.length page = List.length rows
    /\ map event_id page = map row_id rows
    /\ map ev_project_id page = map row_project_id rows
    /\ map snuba_data page
       = map (fun r => {| sd_event_id := row_id r; sd_group_id := row_issue_id r;
                          sd_project_id := row_project_id r;
                          sd_timestamp := row_timestamp r |}) rows
    /\ Forall (fun ev =>
                 sd_event_id (snuba_data ev) = event_id ev
                 /\ sd_project_id (snuba_data ev) = ev_project_id ev
                 /\ node ev = if full
                              then Some (node_payload B (ev_project_id ev) (event_id ev))
                              else None)
              page.
Proof.
  rewrite data_fn_run. cbv zeta.
  destruct (get_query_builder_for_group B _ params group limit offset orderby)
    as [sq | e] eqn:Hbuild; [| destruct e; discriminate].
  destruct (run_query B sq referrer) as [rows | e] eqn:Hrows; [| discriminate].
  intros Hpage. exists sq, rows. split; [reflexivity |]. split; [exact Hrows |].
  destruct full; injection Hpage as <-; rewrite ?length_map, ?map_map;
    repeat split; try reflexivity;
    apply Forall_forall; intros ev Hev;
    apply in_map_iff in Hev; destruct Hev as (r & <- & _); repeat split.
Qed.

(** X4, witness: the second page of the sample store, hydrated. *)
Lemma page_events_mirror_rows_witness :
  let page := map (attach_node Sample.backend)
                  (map event_of_row (skipn 2 Sample.stored)) in
  exists sq rows,
    run_query Sample.backend sq "api.group-events.error" = Ret rows
    /\ List.length page = List.length rows
    /\ map event_id page = map row_id rows.
Proof.
  cbv zeta.
  destruct (page_events_mirror_rows
              Sample.backend (Sample.request_of [])
              (initial_params Sample.now Sample.group None None)
              Sample.group "api.group-events.error" None true 2 2
              (map (attach_node Sample.backend)
                   (map event_of_row (skipn 2 Sample.stored))))
    as (sq & rows & _ & Hr & Hlen & Hids & _).
  - vm_compute. reflexivity.
  - exists sq, rows. auto.
Defined.

Section Serialization.

Context {Q : Type}.
Variable B : Collaborators Q.

Lemma pagination_not_serialize request params group referrer orderby full d ev :
  In ev (trace (run_paginator d (data_fn B request params group referrer orderby full))) ->
  is_serialize ev = false.
Proof.
  intros Hin. apply run_paginator_calls in Hin.
  destruct Hin as (offset & limit & Hin). apply data_fn_calls in Hin.
  destruct Hin as [-> | [(sq & _ & ->) | (events & _ & ->)]]; reflexivity.
Qed.

Lemma direct_hit_not_serialize request query params referrer group ev :
  In ev (trace (get_direct_hit_response B request query params referrer group)) ->
  is_serialize ev = false.
Proof.
  intros Hin. apply direct_hit_phase in Hin. now destruct ev.
Qed.

(** A run of [_get_events_snuba] either never serializes, or ends with the
    one call that serializes what the paginator collected and answers 200
    with it. *)
Lemma snuba_serialize_shape now request group environments query start end_ :
  let run := _get_events_snuba B now request group environments query start end_ in
  let serializer := if request_full request
                    then EventSerializer else SimpleEventSerializer in
  (forall ev, In ev (trace run) -> is_serialize ev = false)
  \/ exists before rows,
      trace run = before ++ [EvSerialize rows serializer]
      /\ (forall ev, In ev before -> is_serialize ev = false)
      /\ result run
         = Ret {| status := 200;
                  data := EventList (serialize B rows (user request) serializer) |}.
Proof.
  cbv zeta. rewrite snuba_run. cbv zeta.
  set (hit := get_direct_hit_response B request query _ _ group).
  assert (Hhit : forall ev, In ev (trace hit) -> is_serialize ev = false).
  { intros ev. apply direct_hit_not_serialize. }
  destruct (result hit) as [[resp |] | e]; cbn [trace fst result snd]; try (now left).
  set (pages := run_paginator _ _).
  assert (Hpages : forall ev, In ev (trace pages) -> is_serialize ev = false).
  { intros ev. apply pagination_not_serialize. }
  destruct (result pages) as [rows | e]; cbn [trace fst result snd].
  - right. exists (trace hit ++ trace pages), rows.
    rewrite app_assoc. repeat split.
    intros ev Hev. apply in_app_or in Hev. destruct Hev; auto.
  - left. intros ev Hev. apply in_app_or in Hev. destruct Hev; auto.
Qed.

Lemma get_serialize_shape now request group :
  let run := get B now request group in
  let serializer := if request_full request
                    then EventSerializer else SimpleEventSerializer in
  (forall ev, In ev (trace run) -> is_serialize ev = false)
  \/ exists before rows,
      trace run = before ++ [EvSerialize rows serializer]
      /\ (forall ev, In ev before -> is_serialize ev = false)
      /\ result run
         = Ret {| status := 200;
                  data := EventList (serialize B rows (user request) serializer) |}.
Proof.
  cbv zeta.
  assert (Hres : forall ev, In ev (trace (resolve_query B request group)) ->
                            is_serialize ev = false).
  { intros ev Hev. apply resolve_query_phase in Hev. now destruct ev. }
  rewrite get_run. cbv zeta.
  destruct (result (resolve_query B request group)) as [[environments query] | e].
  - destruct (get_date_range_from_params B (GET request) true) as [[start end_] | e].
    + cbn [trace fst result snd].
      destruct (snuba_serialize_shape now request group environments query start end_)
        as [Hnone | (before & rows & Ht & Hbefore & Hr)].
      * left. intros ev Hev. apply in_app_or in Hev.
        destruct Hev as [Hev | [<- | Hev]]; auto.
      * right. exists (trace (resolve_query B request group) ++ EvGetDateRange :: before),
                      rows.
        rewrite Ht, Hr. rewrite <- app_assoc. repeat split.
        intros ev Hev. apply in_app_or in Hev.
        destruct Hev as [Hev | [<- | Hev]]; auto.
    + left. assert (Hd : forall ev,
                       In ev (trace (resolve_query B request group) ++ [EvGetDateRange]) ->
                       @is_serialize Q ev = false).
      { intros ev Hev. apply in_app_or in Hev. destruct Hev as [Hev | [<- | []]]; auto. }
      destruct e; exact Hd.
  - left. destruct e; exact Hres.
Qed.

Lemma snuba_response now request group environments query start end_ resp :
  result (_get_events_snuba B now request group environments query start end_)
  = Ret resp ->
  status resp = 200 /\ exists records, data resp = EventList records.
Proof.
  rewrite snuba_run. cbv zeta. rewrite direct_hit_run.
  destruct (direct_hit_qualifies B query).
  - destruct (direct_lookup B query _ _ group) as [[ev |] | e]; cbn [result snd].
    + intros Heq. injection Heq as <-. cbn. eauto.
    + destruct (result (run_paginator _ _)) as [rows | e]; cbn [result snd];
        [| discriminate].
      intros Heq. injection Heq as <-. cbn. eauto.
    + discriminate.
  - cbn [result snd].
    destruct (result (run_paginator _ _)) as [rows | e]; cbn [result snd];
      [| discriminate].
    intros Heq. injection Heq as <-. cbn. eauto.
Qed.

End Serialization.

(** X5.  Hydration and the choice of serializer follow the same flag: in any
    request, a hydration call is made only when [full] is ["1"] or ["true"],
    and the serializer is [EventSerializer] in that case and
    [SimpleEventSerializer] otherwise. *)
Theorem hydration_and_serializer_follow_full {Q} (B : Collaborators Q)
        (now : datetime) (request : Request) (group : Group) (ev : call Q) :
  In ev (trace (get B now request group)) ->
  match ev with
  | EvBindNodes _ => request_full request = true
  | EvSerialize _ serializer =>
      serializer = if request_full request
                   then EventSerializer else SimpleEventSerializer
  | _ => True
  end.
Proof.
  intros Hin. destruct ev; try exact I.
  - apply get_calls in Hin.
    destruct Hin as [Hin | [Hin | (environments & query & start & end_ & _ & _ & Hin)]].
    + apply resolve_query_phase in Hin. discriminate.
    + discriminate.
    + apply snuba_calls in Hin.
      destruct Hin as [Hin | [(offset & limit & Hin) | (rows & sz & Hin)]];
        try discriminate.
      apply data_fn_calls in Hin.
      destruct Hin as [Hin | [(sq & _ & Hin) | (evs & Hfull & _)]];
        try discriminate. exact Hfull.
  - destruct (get_serialize_shape B now request group)
      as [Hnone | (before & rows & Ht & Hbefore & _)].
    + apply Hnone in Hin. discriminate.
    + rewrite Ht in Hin. apply in_app_or in Hin.
      destruct Hin as [Hin | [Heq | []]].
      * apply Hbefore in Hin. discriminate.
      * now injection Heq as <- <-.
Qed.

(** X5, witness: the serialization call of a sample request without [full]. *)
Lemma hydration_and_serializer_follow_full_witness :
  SimpleEventSerializer
  = if request_full (Sample.request_of [("full", "yes")])
    then EventSerializer else SimpleEventSerializer.
Proof.
  apply (hydration_and_serializer_follow_full
           Sample.backend Sample.now (Sample.request_of [("full", "yes")])
           Sample.group
           (EvSerialize (map event_of_row Sample.stored) SimpleEventSerializer)).
  vm_compute. auto 10.
Defined.

(** X10.  A response that [get] returns, rather than raising, has one of
    three origins: the 400 with the message of an [InvalidQuery] raised by
    query resolution; the empty 200 for a [NoResults] or
    [ResourceDoesNotExist] raised there; or, with query and window resolved,
    the response of [_get_events_snuba], unchanged, whose status is 200. *)
Theorem returned_response_origin {Q} (B : Collaborators Q)
        (now : datetime) (request : Request) (group : Group) (resp : Response) :
  result (get B now request group) = Ret resp ->
  (exists msg,
      result (resolve_query B request group) = Raise (InvalidQuery msg)
      /\ resp = {| status := 400; data := Detail msg |})
  \/ ((result (resolve_query B request group) = Raise NoResults
       \/ result (resolve_query B request group) = Raise ResourceDoesNotExist)
      /\ resp = {| status := 200; data := EventList [] |})
  \/ (exists environments query start end_,
         result (resolve_query B request group) = Ret (environments, query)
         /\ get_date_range_from_params B (GET request) true = Ret (start, end_)
         /\ result (_get_events_snuba B now request group environments query
                                       start end_) = Ret resp
         /\ status resp = 200).
Proof.
  rewrite get_run. cbv zeta.
  destruct (result (resolve_query B request group)) as [[environments query] | e].
  - destruct (get_date_range_from_params B (GET request) true) as [[start end_] | e].
    + cbn [result snd].
      destruct (result (_get_events_snuba B now request group environments query
                                          start end_)) as [r | e] eqn:Hrun.
      * intros Heq. injection Heq as <-. right; right.
        exists environments, query, start, end_.
        split; [reflexivity |]. split; [reflexivity |]. split; [exact Hrun |].
        exact (proj1 (snuba_response B _ _ _ _ _ _ _ _ Hrun)).
      * destruct e; discriminate.
    + destruct e; discriminate.
  - destruct e; cbn [result snd]; try discriminate;
      intros Heq; injection Heq as <-; eauto.
Qed.

(** X10, witness: the sample request with an unparseable query. *)
Lemma returned_response_origin_witness :
  let request := Sample.request_of [("query", "((")] in
  let resp := {| status := 400;
                 data := Detail "Invalid query: unbalanced parenthesis" |} in
  (exists msg,
      result (resolve_query Sample.backend request Sample.group)
      = Raise (InvalidQuery msg)
      /\ resp = {| status := 400; data := Detail msg |})
  \/ ((result (resolve_query Sample.backend request Sample.group) = Raise NoResults
       \/ result (resolve_query Sample.backend request Sample.group)
          = Raise ResourceDoesNotExist)
      /\ resp = {| status := 200; data := EventList [] |})
  \/ (exists environments query start end_,
         result (resolve_query Sample.backend request Sample.group)
         = Ret (environments, query)
         /\ get_date_range_from_params Sample.backend (GET request) true
            = Ret (start, end_)
         /\ result (_get_events_snuba Sample.backend Sample.now request Sample.group
                                       environments query start end_) = Ret resp
         /\ status resp = 200).
Proof.
  cbv zeta.
  apply (returned_response_origin
           Sample.backend Sample.now (Sample.request_of [("query", "((")]) Sample.group
           {| status := 400; data := Detail "Invalid query: unbalanced parenthesis" |}).
  vm_compute. reflexivity.
Defined.

(** X11.  Once the query and the window are resolved, a [GroupEventsError]
    raised while looking up or paginating leaves [get] as a [ParseError] with
    the same message, which is a 400 with that detail; any other exception
    raised there leaves [get] unchanged; so [get] does not raise
    [GroupEventsError] from that step. *)
Theorem storage_step_exceptions {Q} (B : Collaborators Q)
        (now : datetime) (request : Request) (group : Group)
        (environments : list Environment) (query : option string)
        (start end_ : option datetime) :
  result (resolve_query B request group) = Ret (environments, query) ->
  get_date_range_from_params B (GET request) true = Ret (start, end_) ->
  let run := _get_events_snuba B now request group environments query start end_ in
  (forall msg,
      result run = Raise (GroupEventsError msg) ->
      result (get B now request group) = Raise (ParseError msg)
      /\ respond (get B now request group)
         = Some {| status := 400; data := Detail msg |})
  /\ (forall e,
         result run = Raise e ->
         (forall msg, e <> GroupEventsError msg) ->
         result (get B now request group) = Raise e)
  /\ (forall msg, result (get B now request group) <> Raise (GroupEventsError msg)).
Proof.
  intros Hres Hdate. cbv zeta. unfold respond.
  rewrite get_run. cbv zeta. rewrite Hres, Hdate. cbn [result snd].
  split; [| split].
  - intros msg Hrun. rewrite Hrun. split; reflexivity.
  - intros e He Hnot. rewrite He. destruct e; try reflexivity.
    now destruct (Hnot msg).
  - intros msg.
    destruct (result (_get_events_snuba B now request group environments query
                                        start end_)) as [r | e];
      [discriminate | destruct e; discriminate].
Qed.

(** X11, witness: the faulty storage engine raises [GroupEventsError] on the
    first page of the request. *)
Lemma storage_step_exceptions_witness :
  let request := Sample.request_of [("query", "retention")] in
  result (get Faulty.backend Sample.now request Sample.group)
  = Raise (ParseError "window is outside of retention")
  /\ respond (get Faulty.backend Sample.now request Sample.group)
     = Some {| status := 400; data := Detail "window is outside of retention" |}.
Proof.
  cbv zeta.
  apply (proj1 (storage_step_exceptions
                  Faulty.backend Sample.now
                  (Sample.request_of [("query", "retention")]) Sample.group
                  [] (Some "retention") None None eq_refl eq_refl)
               "window is outside of retention").
  vm_compute. reflexivity.
Defined.

Section Balance.

Context {Q : Type}.
Variable B : Collaborators Q.

Lemma balanced_app full ok (t1 t2 : list (call Q)) :
  page_calls_balanced full true t1 ->
  page_calls_balanced full ok t2 ->
  page_calls_balanced full ok (t1 ++ t2).
Proof.
  unfold page_calls_balanced. cbv zeta. rewrite !count_app.
  intros (_ & _ & _ & _ & H1) (Ha & Hb & Hc & Hd & He).
  destruct (H1 eq_refl) as [H1b H1h].
  assert (Hret : ok = true ->
                 count is_build_query t2 = count is_run_query t2
                 /\ count is_bind_nodes t2
                    = if full then count is_run_query t2 else 0%nat)
    by exact He.
  destruct full; cbv iota in *.
  - repeat split; intros; try discriminate; try lia;
      match goal with Hx : ok = true |- _ => destruct (Hret Hx) end; lia.
  - specialize (Hd eq_refl).
    repeat split; intros; try lia;
      match goal with Hx : ok = true |- _ => destruct (Hret Hx) end; lia.
Qed.

Lemma balanced_neutral full ok (t : list (call Q)) :
  (forall ev, In ev t -> phase ev <> 3%nat \/ is_serialize ev = true) ->
  page_calls_balanced full ok t.
Proof.
  intros Hall.
  assert (Hb : count is_build_query t = 0%nat).
  { apply count_none. intros ev Hev. destruct (Hall ev Hev), ev; cbn in *; congruence. }
  assert (Hr : count is_run_query t = 0%nat).
  { apply count_none. intros ev Hev. destruct (Hall ev Hev), ev; cbn in *; congruence. }
  assert (Hh : count is_bind_nodes t = 0%nat).
  { apply count_none. intros ev Hev. destruct (Hall ev Hev), ev; cbn in *; congruence. }
  unfold page_calls_balanced. cbv zeta. rewrite Hb, Hr, Hh.
  destruct full; repeat split; lia.
Qed.

Lemma data_fn_balanced request params group referrer orderby full offset limit :
  let fetched := data_fn B request params group referrer orderby full offset limit in
  page_calls_balanced full (returned (result fetched)) (trace fetched).
Proof.
  cbv zeta. rewrite data_fn_run. cbv zeta.
  destruct (get_query_builder_for_group B _ params group limit offset orderby)
    as [sq | e].
  - destruct (run_query B sq referrer) as [rows | e]; [destruct full |];
      unfold page_calls_balanced; cbn; repeat split; try lia; discriminate.
  - destruct e; unfold page_calls_balanced; cbn; repeat split; try lia;
      discriminate.
Qed.

Lemma paginator_balanced request params group referrer orderby full (d : Driver) :
  let run := run_paginator d (data_fn B request params group referrer orderby full) in
  page_calls_balanced full (returned (result run)) (trace run).
Proof.
  cbv zeta. induction d as [rows | offset limit k IH]; cbn [run_paginator].
  - apply balanced_neutral. intros ev [].
  - rewrite trace_bind, result_bind.
    pose proof (data_fn_balanced request params group referrer orderby full
                                 offset limit) as Hpage.
    cbv zeta in Hpage.
    destruct (result (data_fn B request params group referrer orderby full
                              offset limit)) as [rows | e].
    + apply balanced_app; [exact Hpage | apply IH].
    + rewrite app_nil_r. exact Hpage.
Qed.

Lemma snuba_balanced now request group environments query start end_ :
  let run := _get_events_snuba B now request group environments query start end_ in
  page_calls_balanced (request_full request) (returned (result run)) (trace run).
Proof.
  cbv zeta. rewrite snuba_run. cbv zeta.
  set (hit := get_direct_hit_response B request query _ _ group).
  assert (Hhit : forall ok, page_calls_balanced (request_full request) ok (trace hit)).
  { intros ok. apply balanced_neutral. intros ev Hev.
    apply direct_hit_phase in Hev. left. congruence. }
  destruct (result hit) as [[resp |] | e]; cbn [trace fst result snd]; try apply Hhit.
  pose proof (paginator_balanced request
                (page_params (initial_params now group start end_) environments)
                group (group_referrer group) (request_orderby request)
                (request_full request) (paginator B request)) as Hpages.
  cbv zeta in Hpages.
  destruct (result (run_paginator _ _)) as [rows | e]; cbn [trace fst result snd].
  - apply balanced_app; [apply Hhit |].
    apply balanced_app; [exact Hpages |].
    apply balanced_neutral. intros ev [<- | []]. now right.
  - apply balanced_app; [apply Hhit | exact Hpages].
Qed.

Lemma get_balanced now request group :
  page_calls_balanced (request_full request)
                      (returned (result (get B now request group)))
                      (trace (get B now request group)).
Proof.
  assert (Hres : forall ok, page_calls_balanced (request_full request) ok
                              (trace (resolve_query B request group))).
  { intros ok. apply balanced_neutral. intros ev Hev.
    apply resolve_query_phase in Hev. left. congruence. }
  assert (Hdate : forall ok, page_calls_balanced (request_full request) ok
                               (trace (resolve_query B request group)
                                ++ [EvGetDateRange])).
  { intros ok. apply balanced_app; [apply Hres |].
    apply balanced_neutral. intros ev [<- | []]. left. discriminate. }
  rewrite get_run. cbv zeta.
  destruct (result (resolve_query B request group)) as [[environments query] | e].
  - destruct (get_date_range_from_params B (GET request) true) as [[start end_] | e].
    + cbn [trace fst result snd].
      change (trace (resolve_query B request group)
              ++ EvGetDateRange
                 :: trace (_get_events_snuba B now request group environments
                                             query start end_))
        with (trace (resolve_query B request group)
              ++ [EvGetDateRange]
              ++ trace (_get_events_snuba B now request group environments
                                          query start end_)).
      rewrite app_assoc. apply balanced_app; [apply Hdate |].
      pose proof (snuba_balanced now request group environments query start end_)
        as Hrun.
      cbv zeta in Hrun.
      destruct (result (_get_events_snuba B now request group environments query
                                          start end_)) as [r | e];
        [exact Hrun | destruct e; exact Hrun].
    + destruct e; apply Hdate.
  - destruct e; apply Hres.
Qed.

End Balance.

(** X6.  Over a whole request, with a paginator that stops at the first
    page fetch that raises, every query that is run was built before, at most
    one built query is not run, and hydration calls never outnumber the
    queries run.  Without [full] there is no hydration call at all.  When
    [get] returns a response, every built query was run, and with [full]
    every run was followed by one hydration call. *)
Theorem page_calls_are_balanced {Q} (B : Collaborators Q)
        (now : datetime) (request : Request) (group : Group) :
  let t := trace (get B now request group) in
  (count is_bind_nodes t <= count is_run_query t)%nat
  /\ (count is_run_query t <= count is_build_query t)%nat
  /\ (count is_build_query t <= count is_run_query t + 1)%nat
  /\ (request_full request = false -> count is_bind_nodes t = 0%nat)
  /\ (forall resp,
         result (get B now request group) = Ret resp ->
         count is_build_query t = count is_run_query t
         /\ count is_bind_nodes t
            = if request_full request then count is_run_query t else 0%nat).
Proof.
  cbv zeta. pose proof (get_balanced B now request group) as Hb.
  unfold page_calls_balanced in Hb. cbv zeta in Hb.
  destruct Hb as (H1 & H2 & H3 & H4 & H5).
  split; [exact H1 |]. split; [exact H2 |]. split; [exact H3 |].
  split; [exact H4 |].
  intros resp Hret. rewrite Hret in H5. now apply H5.
Qed.

(** X6, witness: the sample request with [full=1], which fetches two pages. *)
Lemma page_calls_are_balanced_witness :
  let t := trace (get Sample.backend Sample.now (Sample.request_of [("full", "1")])
                      Sample.group) in
  count is_build_query t = count is_run_query t
  /\ count is_bind_nodes t
     = if request_full (Sample.request_of [("full", "1")])
       then count is_run_query t else 0%nat.
Proof.
  cbv zeta.
  apply (proj2 (proj2 (proj2 (proj2 (page_calls_are_balanced
                                       Sample.backend Sample.now
                                       (Sample.request_of [("full", "1")])
                                       Sample.group))))
               {| status := 200;
                  data := EventList (map row_id Sample.stored) |}).
  vm_compute. reflexivity.
Defined.

Lemma string_length_append (s t : string) :
  String.length (s ++ t)%string = (String.length s + String.length t)%nat.
Proof. induction s as [| c s IH]; cbn; [reflexivity | now rewrite IH]. Qed.

Lemma lower_ascii_not_upper (c : ascii) :
  ~ (65 <= nat_of_ascii (lower_ascii c) <= 90)%nat.
Proof.
  unfold lower_ascii.
  destruct (Nat.leb 65 (nat_of_ascii c)) eqn:Hlo;
    destruct (Nat.leb (nat_of_ascii c) 90) eqn:Hhi; cbn [andb];
    try (apply Nat.leb_gt in Hlo); try (apply Nat.leb_gt in Hhi);
    try lia.
  apply Nat.leb_le in Hlo, Hhi.
  rewrite nat_ascii_embedding; lia.
Qed.

(** X7.  For a group whose category name is written in ASCII, the storage
    calls of a request are tagged by what they are for: a page query with
    ["api.group-events."] followed by the lowercased category name, a
    direct-hit lookup with that tag followed by [".direct-hit"].  The two tags
    of a group are never equal, and the lowercased name in them is written in
    ASCII with no capital letter. *)
Theorem referrers_tell_lookup_from_pages {Q} (B : Collaborators Q)
        (now : datetime) (request : Request) (group : Group) :
  ascii_only (issue_category_name group) = true ->
  (forall ev,
      In ev (trace (get B now request group)) ->
      match ev with
      | EvDirectLookup _ _ referrer =>
          referrer = (("api.group-events." ++ lower (issue_category_name group))
                      ++ ".direct-hit")%string
      | EvRunQuery _ referrer =>
          referrer = ("api.group-events." ++ lower (issue_category_name group))%string
      | _ => True
      end)
  /\ (group_referrer group ++ ".direct-hit")%string <> group_referrer group
  /\ ascii_only (lower (issue_category_name group)) = true
  /\ (forall c,
         In c (list_ascii_of_string (lower (issue_category_name group))) ->
         ~ (65 <= nat_of_ascii c <= 90)%nat).
Proof.
  intros Hascii. split; [| split; [| split]].
  - intros ev Hin. apply get_calls in Hin.
    destruct Hin as [Hin | [-> | (environments & query & start & end_ & _ & _ & Hin)]].
    + apply resolve_query_phase in Hin. destruct ev; try exact I; discriminate.
    + exact I.
    + apply snuba_calls in Hin.
      destruct Hin as [-> | [(offset & limit & Hin) | (rows & sz & ->)]];
        try reflexivity; try exact I.
      apply data_fn_calls in Hin.
      destruct Hin as [-> | [(sq & _ & ->) | (events & _ & ->)]];
        try reflexivity; exact I.
  - intros Heq. apply (f_equal String.length) in Heq.
    rewrite string_length_append in Heq. cbn in Heq. lia.
  - unfold ascii_only in *.
    induction (issue_category_name group) as [| a s IH]; [reflexivity |].
    cbn [lower list_ascii_of_string forallb] in *.
    apply andb_true_iff in Hascii. destruct Hascii as [Ha Hs].
    apply andb_true_iff. split; [| now apply IH].
    apply Nat.ltb_lt in Ha. apply Nat.ltb_lt. unfold lower_ascii.
    destruct (Nat.leb 65 (nat_of_ascii a)) eqn:Hlo;
      destruct (Nat.leb (nat_of_ascii a) 90) eqn:Hhi; cbn [andb]; try exact Ha.
    apply Nat.leb_le in Hhi. rewrite nat_ascii_embedding; lia.
  - clear Hascii.
    induction (issue_category_name group) as [| a s IH]; cbn; intros c Hc.
    + destruct Hc.
    + destruct Hc as [<- | Hc]; [apply lower_ascii_not_upper | now apply IH].
Qed.

(** X7, witness: the lookup of the sample request for a stored event id. *)
Lemma referrers_tell_lookup_from_pages_witness :
  "api.group-events.error.direct-hit"
  = (("api.group-events." ++ lower (issue_category_name Sample.group))
     ++ ".direct-hit")%string.
Proof.
  apply (proj1 (referrers_tell_lookup_from_pages
                  Sample.backend Sample.now
                  (Sample.request_of [("query", Sample.known_id)]) Sample.group
                  eq_refl)
               (EvDirectLookup (Some Sample.known_id)
                               (initial_params Sample.now Sample.group None None)
                               "api.group-events.error.direct-hit")).
  vm_compute. auto 10.
Defined.

(** X8.  When no environment is resolved for the request, no query-parameter
    dict sent to the storage side has an environment restriction: the lookup
    and every page query are given the same dict, the one
    [_get_events_snuba] first built. *)
Theorem no_environment_no_restriction {Q} (B : Collaborators Q)
        (now : datetime) (request : Request) (group : Group)
        (ev : call Q) (params : Params) :
  get_environments B request (organization (project group)) = Ret [] ->
  In ev (trace (get B now request group)) ->
  event_params ev = Some params ->
  p_environment params = None
  /\ exists start end_,
      get_date_range_from_params B (GET request) true = Ret (start, end_)
      /\ params = initial_params now group start end_.
Proof.
  intros Henv Hin Hp.
  destruct (get_params B now request group ev params Hin Hp)
    as (environments & query & start & end_ & Hr & Hd & Hcase).
  apply resolve_query_environments in Hr. rewrite Henv in Hr. injection Hr as <-.
  assert (Heq : params = initial_params now group start end_).
  { destruct Hcase as [[-> _] | [-> _]]; reflexivity. }
  subst params. split; [reflexivity |]. eauto.
Qed.

(** X8, witness: a page query of the sample request without parameters. *)
Lemma no_environment_no_restriction_witness :
  p_environment (initial_params Sample.now Sample.group None None) = None
  /\ exists start end_,
      get_date_range_from_params Sample.backend (GET (Sample.request_of [])) true
      = Ret (start, end_)
      /\ initial_params Sample.now Sample.group None None
         = initial_params Sample.now Sample.group start end_.
Proof.
  apply (no_environment_no_restriction
           Sample.backend Sample.now (Sample.request_of []) Sample.group
           (EvBuildQuery "" (initial_params Sample.now Sample.group None None)
                         Sample.group 2 0 None)).
  - vm_compute. reflexivity.
  - vm_compute. auto 10.
  - reflexivity.
Defined.

(** X9.  The clock is read only to fill in a missing bound: when the request
    gives both [start] and [end], the whole request, its calls and its
    response, is the same whatever the time at which it is served. *)
Theorem explicit_window_ignores_clock {Q} (B : Collaborators Q)
        (now1 now2 : datetime) (request : Request) (group : Group)
        (s e : datetime) :
  get_date_range_from_params B (GET request) true = Ret (Some s, Some e) ->
  get B now1 request group = get B now2 request group.
Proof.
  intros Hdate. rewrite !get_run. cbv zeta.
  destruct (result (resolve_query B request group)) as [[environments query] | exc];
    [| reflexivity].
  rewrite Hdate. reflexivity.
Qed.

(** X9, witness: the sample request for 2023, served five seconds apart. *)
Lemma explicit_window_ignores_clock_witness :
  let request := Sample.request_of [("start", "2023-01-01T00:00:00");
                                    ("end", "2023-11-01T00:00:00")] in
  get Sample.backend Sample.now request Sample.group
  = get Sample.backend (Sample.now + 5000000) request Sample.group.
Proof.
  cbv zeta.
  apply (explicit_window_ignores_clock
           Sample.backend Sample.now (Sample.now + 5000000)
           (Sample.request_of [("start", "2023-01-01T00:00:00");
                               ("end", "2023-11-01T00:00:00")])
           Sample.group 1672531200000000 1698796800000000).
  vm_compute. reflexivity.
Defined.
